(** * one_day.py: acquisition ordering and burst index alignment

    A shallow embedding of [src/src/upstream_utils/one_day.py]:
    [circular_sort], [find_bursts], the file loop of [one_day] and
    [extract_bursts], together with the parts of Python's [str], [int],
    [re] and [list.sort] they rely on.

    Conventions of the model.
    - Python [str] values are [string]s of one-byte characters, the code
      [n] standing for the code point U+00[n]; file names are URLs and label
      tables are ASCII text.  On these characters the regex class [\d] and
      [int] know the decimal digits ['0'..'9'] only, while [str.isdigit]
      also holds of the superscripts U+00B2, U+00B3 and U+00B9, which a
      command-line argument may contain.
    - Python [int] is [Z]; the one float of the code, [nx / 4], is an exact
      rational ([Q]): it is exact in binary floating point for every array
      length below 2^53, and Python compares an int with a float exactly.
    - A raised exception is the [Raise] case of [result]; [exit(0)] raises
      [SystemExit]. *)

From Stdlib Require Import ZArith QArith List String Ascii Bool Lia.
From Stdlib Require Import DecimalString.
From Stdlib Require Import Permutation Sorted.
Import ListNotations.

Local Open Scope string_scope.
Local Open Scope Z_scope.

(** ** Exceptions and the error monad *)

Inductive exn : Type :=
| SystemExit (printed : string) (code : Z)  (* print(...) followed by exit(code) *)
| ValueError
| AttributeError
| IndexError
| HTTPError
| OSError.

Inductive result (A : Type) : Type :=
| Ok (a : A)
| Raise (e : exn).

Arguments Ok {A} a.
Arguments Raise {A} e.

Definition bind {A B : Type} (m : result A) (k : A -> result B) : result B :=
  match m with
  | Ok a => k a
  | Raise e => Raise e
  end.

Notation "x <- m ;; k" := (bind m (fun x => k))
  (at level 61, m at next level, right associativity).

(** [list(map(f, xs))] for an [f] that may raise: the first failure wins. *)
Fixpoint mapM {A B : Type} (f : A -> result B) (xs : list A) : result (list B) :=
  match xs with
  | [] => Ok []
  | x :: xs' => y <- f x ;; ys <- mapM f xs' ;; Ok (y :: ys)
  end.

(** A [for] loop whose body may raise, threading the loop state. *)
Fixpoint foldM {A S : Type} (body : S -> A -> result S) (xs : list A) (st : S)
  : result S :=
  match xs with
  | [] => Ok st
  | x :: xs' => st' <- body st x ;; foldM body xs' st'
  end.

(** ** Python strings *)

Module PyStr.

Definition is_digit (c : ascii) : bool :=
  match c with
  | "0" | "1" | "2" | "3" | "4" | "5" | "6" | "7" | "8" | "9" => true
  | _ => false
  end%char.

Definition digit_val (c : ascii) : Z :=
  match c with
  | "1" => 1 | "2" => 2 | "3" => 3 | "4" => 4 | "5" => 5
  | "6" => 6 | "7" => 7 | "8" => 8 | "9" => 9 | _ => 0
  end%char.

(** Whitespace of [str.strip()] on ASCII: 0x09-0x0d, 0x1c-0x1f, 0x20. *)
Definition is_space (c : ascii) : bool :=
  let n := N_of_ascii c in
  ((9 <=? n) && (n <=? 13) || (28 <=? n) && (n <=? 32))%N.

(** Whitespace skipped by [int()] on an ASCII string: 0x09-0x0d, 0x20. *)
Definition is_c_space (c : ascii) : bool :=
  let n := N_of_ascii c in
  ((9 <=? n) && (n <=? 13) || (n =? 32))%N.

Fixpoint all_chars (p : ascii -> bool) (s : string) : bool :=
  match s with
  | EmptyString => true
  | String c r => p c && all_chars p r
  end.

Fixpoint lstrip_by (p : ascii -> bool) (s : string) : string :=
  match s with
  | EmptyString => EmptyString
  | String c r => if p c then lstrip_by p r else s
  end.

Fixpoint rstrip_by (p : ascii -> bool) (s : string) : string :=
  match s with
  | EmptyString => EmptyString
  | String c r =>
      match rstrip_by p r with
      | EmptyString => if p c then EmptyString else String c EmptyString
      | r' => String c r'
      end
  end.

(** [s.strip()] *)
Definition strip (s : string) : string := rstrip_by is_space (lstrip_by is_space s).

(** [s.startswith(p)] *)
Definition startswith (p s : string) : bool := String.prefix p s.

(** [p in s] for strings *)
Fixpoint contains (p s : string) : bool :=
  String.prefix p s ||
  match s with
  | EmptyString => false
  | String _ r => contains p r
  end.

(** [s.split(sep)] for a one-character separator. *)
Fixpoint split (sep : ascii) (s : string) : list string :=
  match s with
  | EmptyString => [EmptyString]
  | String c r =>
      if Ascii.eqb c sep then EmptyString :: split sep r
      else match split sep r with
           | h :: t => String c h :: t
           | [] => [String c EmptyString]
           end
  end.

(** Python slices [s[:2]], [s[2:4]], [s[4:6]]: clipped at the end of [s]. *)
Definition slice (start stop : nat) (s : string) : string :=
  String.substring start (stop - start) s.

(** The digits of a base-10 [int()] literal after its first digit: more
    digits, single underscores between digits, then only whitespace. *)
Fixpoint int_tail (acc : Z) (s : string) : option Z :=
  match s with
  | EmptyString => Some acc
  | String c r =>
      if is_digit c then int_tail (10 * acc + digit_val c) r
      else if Ascii.eqb c "_" then
        match r with
        | String d r' =>
            if is_digit d then int_tail (10 * acc + digit_val d) r' else None
        | EmptyString => None
        end
      else if all_chars is_c_space s then Some acc
      else None
  end.

Definition int_unsigned (s : string) : option Z :=
  match s with
  | String c r => if is_digit c then int_tail (digit_val c) r else None
  | EmptyString => None
  end.

(** [int(s)] in base 10: optional surrounding whitespace, optional sign.
    (The interpreter's limit on the number of digits is not modelled.) *)
Definition int (s : string) : result Z :=
  let body := lstrip_by is_c_space s in
  let parsed :=
    match body with
    | String "+" r => int_unsigned r
    | String "-" r => option_map Z.opp (int_unsigned r)
    | _ => int_unsigned body
    end%char in
  match parsed with
  | Some n => Ok n
  | None => Raise ValueError
  end.

End PyStr.

(** ** The two time-code patterns of [re] *)

Module Re.

(** One attempt of [_(\d{6})T] at the head of [s], [T] being the closing
    character ([_] for pattern A, [i] for pattern B); the result is
    group 1. *)
Definition match_here (closing : ascii) (s : string) : option string :=
  match s with
  | String u (String d1 (String d2 (String d3 (String d4 (String d5
      (String d6 (String t _))))))) =>
      if Ascii.eqb u "_"
         && PyStr.is_digit d1 && PyStr.is_digit d2 && PyStr.is_digit d3
         && PyStr.is_digit d4 && PyStr.is_digit d5 && PyStr.is_digit d6
         && Ascii.eqb t closing
      then Some (String d1 (String d2 (String d3 (String d4 (String d5
                  (String d6 EmptyString))))))
      else None
  | _ => None
  end.

(** [re.compile(r"_(\d{6})T").search(s)]: the leftmost match; [None] when
    there is none, otherwise group 1. *)
Fixpoint search (closing : ascii) (s : string) : option string :=
  match match_here closing s with
  | Some g => Some g
  | None =>
      match s with
      | EmptyString => None
      | String _ r => search closing r
      end
  end.

Definition pattern_A : ascii := "_"%char.   (* r"_(\d{6})_" *)
Definition pattern_B : ascii := "i"%char.   (* r"_(\d{6})i" *)

End Re.

(** [hhmmss_to_seconds] of [circular_sort]; [find_bursts] inlines the same
    expression. *)
Definition hhmmss_to_seconds (hhmmss : string) : result Z :=
  h <- PyStr.int (PyStr.slice 0 2 hhmmss) ;;
  m <- PyStr.int (PyStr.slice 2 4 hhmmss) ;;
  s <- PyStr.int (PyStr.slice 4 6 hhmmss) ;;
  Ok (h * 3600 + m * 60 + s).

(** ** [list.sort(key=...)]

    Python's sort is stable and ascending in the key.  The model is the
    stable insertion sort; [sort_by_sorted], [sort_by_perm] and
    [sort_by_stable] below show that it returns the sorted, stable
    rearrangement of its input, which is what [list.sort] returns. *)

Section Sort.
Context {A : Type} (key : A -> Z).

Fixpoint insert_by (x : A) (l : list A) : list A :=
  match l with
  | [] => [x]
  | y :: l' => if key x <=? key y then x :: y :: l' else y :: insert_by x l'
  end.

Fixpoint sort_by (l : list A) : list A :=
  match l with
  | [] => []
  | x :: l' => insert_by x (sort_by l')
  end.
End Sort.

(** ** [circular_sort] *)

(** Lines 53-67: the pattern is tested on [files[0]]. *)
Definition choose_pattern (files : list string) (url : string) : result ascii :=
  match files with
  | [] => Raise IndexError
  | f0 :: _ =>
      match Re.search Re.pattern_A f0 with
      | Some _ => Ok Re.pattern_A
      | None =>
          match Re.search Re.pattern_B f0 with
          | Some _ => Ok Re.pattern_B
          | None =>
              Raise (SystemExit
                       ("ERROR: No matching time formats found at: " ++ url) 0)
          end
      end
  end.

(** Lines 70-75: files that do not match the chosen pattern are left out. *)
Fixpoint time_file_pairs (time_re : ascii) (files : list string)
  : result (list (Z * string)) :=
  match files with
  | [] => Ok []
  | f :: fs =>
      match Re.search time_re f with
      | Some g =>
          t <- hhmmss_to_seconds g ;;
          rest <- time_file_pairs time_re fs ;;
          Ok ((t, f) :: rest)
      | None => time_file_pairs time_re fs
      end
  end.

(** [next((i for i, t in enumerate(times) if t >= offset_sec), 0)] *)
Fixpoint first_index_from (offset_sec : Z) (times : list Z) (i : nat) : option nat :=
  match times with
  | [] => None
  | t :: ts => if offset_sec <=? t then Some i
               else first_index_from offset_sec ts (S i)
  end.

Definition rotation_index (offset_sec : Z) (times : list Z) : nat :=
  match first_index_from offset_sec times 0 with
  | Some i => i
  | None => 0%nat
  end.

Definition circular_sort (files : list string) (offset url : string)
  : result (list string) :=
  time_re <- choose_pattern files url ;;
  pairs <- time_file_pairs time_re files ;;
  let sorted := sort_by fst pairs in
  offset_sec <- hhmmss_to_seconds offset ;;
  let times := map fst sorted in
  let idx := rotation_index offset_sec times in
  Ok (map snd (skipn idx sorted) ++ map snd (firstn idx sorted))%list.

(** ** Two-dimensional arrays

    An array of shape [(shape0, shape1)]: axis 0 is the frequency bin, axis 1
    the time sample; [data] lists the rows.  The element type plays no role
    in the code. *)

Section Arrays.
Variable elt : Type.

Record ndarray : Type := mk_ndarray {
  shape0 : nat;
  shape1 : nat;
  data : list (list elt)
}.

Definition wf_ndarray (a : ndarray) : Prop :=
  List.length (data a) = shape0 a /\
  Forall (fun r => List.length r = shape1 a) (data a).

Definition row (i : nat) (a : ndarray) : list elt := nth i (data a) [].

(** [np.concatenate(arrays, axis=1)]: row [i] of the result is the rows [i]
    of the arrays one after the other; the arrays must agree on axis 0. *)
Definition np_concatenate_axis1 (arrays : list ndarray) : result ndarray :=
  match arrays with
  | [] => Raise ValueError
  | a :: rest =>
      if forallb (fun b => Nat.eqb (shape0 b) (shape0 a)) rest then
        Ok {| shape0 := shape0 a;
              shape1 := list_sum (map shape1 arrays);
              data := map (fun i => List.concat (map (row i) arrays))
                          (seq 0 (shape0 a)) |}
      else Raise ValueError
  end.

(** [np.flipud]: the order of axis 0 is reversed. *)
Definition np_flipud (a : ndarray) : ndarray :=
  {| shape0 := shape0 a; shape1 := shape1 a; data := rev (data a) |}.

(** ** [find_bursts] *)

Record burst_index : Type := mk_burst_index {
  burst : string;
  start_idx : Z;
  end_idx : Z
}.

Definition parse_time_str (tstr : string) : result Z :=
  parts <- mapM PyStr.int (PyStr.split ":" tstr) ;;
  match parts with
  | [h; m] => Ok (h * 3600 + m * 60 + 0)
  | [h; m; s] => Ok (h * 3600 + m * 60 + s)
  | _ => Raise ValueError
  end.

(** [bstart_str, bend_str = burst.split("-")] and the two conversions. *)
Definition parse_burst (b : string) : result (Z * Z) :=
  match PyStr.split "-" b with
  | [bstart_str; bend_str] =>
      bstart_sec <- parse_time_str bstart_str ;;
      bend_sec <- parse_time_str bend_str ;;
      Ok (bstart_sec, bend_sec)
  | _ => Raise ValueError
  end.

Definition Qltb (x y : Q) : bool := negb (Qle_bool y x).

(** [file_start_sec + nx / 4] *)
Definition file_end (file_start_sec nx : Z) : Q :=
  (inject_Z file_start_sec + inject_Z nx / 4)%Q.

(** The body of the loop over [burst_list], lines 124-139. *)
Definition find_bursts_body (nx file_start_sec current_idx : Z)
           (results : list burst_index) (b : string)
  : result (list burst_index) :=
  be <- parse_burst b ;;
  let '(bstart_sec, bend_sec) := be in
  if Qltb (inject_Z bstart_sec) (file_end file_start_sec nx)
     && (file_start_sec <=? bend_sec)
  then
    let start_idx := Z.max 0 ((bstart_sec - file_start_sec) * 4) in
    let end_idx := Z.min (nx - 1) ((bend_sec - file_start_sec) * 4) in
    let start_idx := start_idx + current_idx - 4 * 60 in
    let end_idx := end_idx + current_idx + 4 * 60 in
    Ok (results ++ [mk_burst_index b start_idx end_idx])%list
  else Ok results.

Definition find_bursts (arr : ndarray) (burst_list : list string)
           (filename : string) (results : list burst_index) (current_idx : Z)
  : result (list burst_index * Z) :=
  let nx := Z.of_nat (shape1 arr) in
  match Re.search Re.pattern_A filename with
  | None => Raise AttributeError          (* None.group(1) *)
  | Some hhmmss =>
      file_start_sec <- hhmmss_to_seconds hhmmss ;;
      results <- foldM (find_bursts_body nx file_start_sec current_idx)
                       burst_list results ;;
      let current_idx := current_idx + nx in
      Ok (results, current_idx)
  end.

(** ** [download_fits_from_gz]

    The network and the two decoders are the environment of the run. *)

Record response : Type := mk_response {
  status_code : Z;
  content : list Byte.byte
}.

Record world : Type := mk_world {
  requests_get : string -> result response;
  gzip_read : list Byte.byte -> result (list Byte.byte);
  fits_data : list Byte.byte -> result ndarray
}.

Definition raise_for_status (r : response) : result unit :=
  if (400 <=? status_code r) && (status_code r <? 600) then Raise HTTPError
  else Ok tt.

(** The Python value returned is an array, never [None]: [Some]. *)
Definition download_fits_from_gz (w : world) (url : string)
  : result (option ndarray) :=
  r <- requests_get w url ;;
  _ <- raise_for_status r ;;
  raw <- gzip_read w (content r) ;;
  hdu <- fits_data w raw ;;
  Ok (Some hdu).

(** ** [one_day] *)

Record loop_state : Type := mk_loop_state {
  arrays : list ndarray;
  burst_indices : list burst_index;
  current_idx : Z
}.

Definition initial_state : loop_state := mk_loop_state [] [] 0.

(** The body of the loop over [sorted_files], lines 192-200. *)
Definition one_day_body (download : string -> result (option ndarray))
           (burst_list : option (list string))
           (st : loop_state) (url : string) : result loop_state :=
  arr <- download url ;;
  match arr with
  | Some a =>
      bc <- match burst_list with
            | Some bl => find_bursts a bl url (burst_indices st) (current_idx st)
            | None => Ok (burst_indices st, current_idx st)
            end ;;
      Ok (mk_loop_state (arrays st ++ [a])%list (fst bc) (snd bc))
  | None => Ok st
  end.

Definition one_day_loop (download : string -> result (option ndarray))
           (burst_list : option (list string)) (sorted_files : list string)
  : result loop_state :=
  foldM (one_day_body download burst_list) sorted_files initial_state.

(** Lines 202-208. *)
Definition one_day_finish (st : loop_state)
  : result (ndarray * list burst_index) :=
  match arrays st with
  | [] => Raise ValueError
  | _ =>
      big_array <- np_concatenate_axis1 (arrays st) ;;
      Ok (np_flipud big_array, burst_indices st)
  end.

(** [one_day] from the directory listing on: [files] are the absolute URLs
    of the listing (lines 171-179), [url] the URL of the day's directory. *)
Definition one_day (w : world) (files : list string) (url station time : string)
           (burst_list : option (list string))
  : result (ndarray * list burst_index) :=
  let station_files := filter (PyStr.contains station) files in
  match station_files with
  | [] =>
      Raise (SystemExit
               ("ERROR: No match found for " ++ station ++ " found at " ++ url) 0)
  | _ =>
      sorted_files <- circular_sort station_files time url ;;
      st <- one_day_loop (download_fits_from_gz w) burst_list sorted_files ;;
      one_day_finish st
  end.

End Arrays.

Arguments mk_ndarray {elt}.
Arguments shape0 {elt}.
Arguments shape1 {elt}.
Arguments data {elt}.
Arguments wf_ndarray {elt}.
Arguments row {elt}.
Arguments np_concatenate_axis1 {elt}.
Arguments np_flipud {elt}.
Arguments find_bursts {elt}.
Arguments mk_world {elt}.
Arguments requests_get {elt}.
Arguments gzip_read {elt}.
Arguments fits_data {elt}.
Arguments download_fits_from_gz {elt}.
Arguments mk_loop_state {elt}.
Arguments arrays {elt}.
Arguments burst_indices {elt}.
Arguments current_idx {elt}.
Arguments initial_state {elt}.
Arguments one_day_body {elt}.
Arguments one_day_loop {elt}.
Arguments one_day_finish {elt}.
Arguments one_day {elt}.

(** ** [extract_bursts] *)

Module Labels.

Definition tab : ascii := "009"%char.

(** Line boundaries of [str.splitlines()] on ASCII text. *)
Definition is_linebreak (c : ascii) : bool :=
  let n := N_of_ascii c in
  ((10 <=? n) && (n <=? 13) || (28 <=? n) && (n <=? 30))%N.

(** [text.splitlines()]: a carriage return followed by a line feed is one
    boundary, and a final boundary opens no empty last line. *)
Fixpoint splitlines (s : string) : list string :=
  match s with
  | EmptyString => []
  | String c r =>
      if is_linebreak c then
        EmptyString ::
          splitlines (if Ascii.eqb c "013"
                      then match r with
                           | String "010" r' => r'
                           | _ => r
                           end
                      else r)
      else match splitlines r with
           | [] => [String c EmptyString]
           | h :: t => String c h :: t
           end
  end%char.

Fixpoint zeros (n : nat) : string :=
  match n with
  | O => EmptyString
  | S n' => String "0" (zeros n')
  end.

(** [f"{n:0Wd}"]: decimal digits, zero-padded to [width] characters, the
    sign counted in the width. *)
Definition format_0d (width : nat) (n : Z) : string :=
  let digits := NilZero.string_of_uint (N.to_uint (Z.abs_N n)) in
  let sign := if n <? 0 then "-" else "" in
  sign ++ zeros (width - String.length sign - String.length digits) ++ digits.

(** The body of the loop over [lines], lines 239-250. *)
Definition extract_bursts_body (station date : string)
           (bursts : list string) (line : string) : result (list string) :=
  if String.eqb (PyStr.strip line) ""
     || PyStr.startswith "#" line || PyStr.startswith "-" line
  then Ok bursts
  else
    let parts := PyStr.split tab line in
    if (List.length parts <? 4)%nat then Ok bursts
    else
      match parts with
      | [line_date; time_range; _; stations] =>
          if String.eqb line_date date then
            let station_list := map PyStr.strip (PyStr.split "," stations) in
            if existsb (String.eqb station) station_list
            then Ok (bursts ++ [time_range])%list
            else Ok bursts
          else Ok bursts
      | _ => Raise ValueError          (* too many values to unpack *)
      end.

(** [extract_bursts] from the downloaded table on: [text] is [resp.text]. *)
Definition extract_bursts (text station : string) (year month day : Z)
  : result (list string) :=
  let lines := splitlines text in
  let date := format_0d 4 year ++ format_0d 2 month ++ format_0d 2 day in
  foldM (extract_bursts_body station date) lines [].

End Labels.

(** ** Vocabulary of the statements

    The notions the properties below are stated with. *)

(** A time of day as the file names and the offset carry it: six digits. *)
Definition six_digits (s : string) : bool :=
  (String.length s =? 6)%nat && PyStr.all_chars PyStr.is_digit s.

(** [f] has a match of the pattern closed by [c]. *)
Definition matches (c : ascii) (f : string) : bool :=
  match Re.search c f with Some _ => true | None => false end.

(** The seconds since midnight a file name carries under a pattern. *)
Definition file_time (c : ascii) (f : string) : option Z :=
  match Re.search c f with
  | Some g => match hhmmss_to_seconds g with Ok t => Some t | Raise _ => None end
  | None => None
  end.

(** The (time, file) pairs of the files that match, in input order. *)
Definition matched_pairs (c : ascii) (files : list string) : list (Z * string) :=
  flat_map (fun f => match file_time c f with Some t => [(t, f)] | None => [] end) files.

(** [l'] is the stable ascending sort of [l]: a rearrangement, ascending in
    the key, that keeps the input order among equal keys. *)
Definition stable_sorted {A : Type} (key : A -> Z) (l l' : list A) : Prop :=
  Permutation l l' /\
  StronglySorted (fun x y => key x <= key y) l' /\
  forall k, filter (fun x => key x =? k) l' = filter (fun x => key x =? k) l.

(** [idx] is the first position whose time is at least [off], or 0 when every
    time is below [off]. *)
Definition first_position_ge (off : Z) (times : list Z) (idx : nat) : Prop :=
  ((idx < List.length times)%nat /\ off <= nth idx times 0 /\
   forall j, (j < idx)%nat -> nth j times 0 < off)
  \/ (idx = 0%nat /\ forall t, In t times -> t < off).

(** The pattern decision read over the whole set: pattern A when some file
    name matches it, else pattern B when some file name matches that, else
    none. *)
Definition whole_set_pattern (files : list string) : option ascii :=
  if existsb (matches Re.pattern_A) files then Some Re.pattern_A
  else if existsb (matches Re.pattern_B) files then Some Re.pattern_B
  else None.

(** The line printed before [exit(0)] on line 66. *)
Definition no_format_message (url : string) : string :=
  "ERROR: No matching time formats found at: " ++ url.

(** Clipping into [[lo, hi]], the lower bound tested first; for [lo <= hi]
    it is [max lo (min x hi)] ([clamp_max_min]). *)
Definition clamp (x lo hi : Z) : Z :=
  if x <? lo then lo else if hi <? x then hi else x.

(** The overlap test, with the end of the file at [fstart + nx / 4]. *)
Definition overlaps (bstart bend fstart nx : Z) : Prop :=
  (inject_Z bstart < inject_Z fstart + inject_Z nx / 4)%Q /\ bend >= fstart.

(** The index range of a burst in a file that starts at [cursor]: clipped to
    the file, then widened by 240 samples on each side. *)
Definition aligned_range (b : string) (bstart bend fstart nx cursor : Z) : burst_index :=
  mk_burst_index b
    (cursor + clamp ((bstart - fstart) * 4) 0 (nx - 1) - 240)
    (cursor + clamp ((bend - fstart) * 4) 0 (nx - 1) + 240).

(** What one burst adds to the accumulator for one file: exactly one range
    when it overlaps the file, nothing otherwise. *)
Definition aligned (fstart nx cursor : Z) (b : string) (entries : list burst_index) : Prop :=
  exists bstart bend,
    parse_burst b = Ok (bstart, bend) /\
    ((overlaps bstart bend fstart nx /\
      entries = [aligned_range b bstart bend fstart nx cursor])
     \/ (~ overlaps bstart bend fstart nx /\ entries = [])).

(** The interval string splits into two well-formed endpoints. *)
Definition parses (b : string) : Prop := exists p, parse_burst b = Ok p.

Section Defs.
Context {elt : Type}.

(** The sample count of an array: the length of its time axis. *)
Definition nx (a : ndarray elt) : Z := Z.of_nat (shape1 a).

Definition total_samples (arrs : list (ndarray elt)) : Z :=
  Z.of_nat (list_sum (map shape1 arrs)).

(** The loop body of [one_day] with burst intervals, the call of line 198
    made through [aligner] and the accumulator of any type [R]. *)
Record aligner_state (R : Type) : Type := mk_aligner_state {
  seen_arrays : list (ndarray elt);
  accumulator : R;
  cursor : Z
}.

Arguments mk_aligner_state {R}.
Arguments seen_arrays {R}.
Arguments accumulator {R}.
Arguments cursor {R}.

Definition one_day_body_via {R : Type}
           (aligner : ndarray elt -> string -> R -> Z -> result (R * Z))
           (download : string -> result (option (ndarray elt)))
           (st : aligner_state R) (url : string) : result (aligner_state R) :=
  arr <- download url ;;
  match arr with
  | Some a =>
      bc <- aligner a url (accumulator st) (cursor st) ;;
      Ok (mk_aligner_state (seen_arrays st ++ [a])%list (fst bc) (snd bc))
  | None => Ok st
  end.

(** [find_bursts] behind a recorder: each call notes the [current_idx] it is
    given, then does what [find_bursts] does. *)
Definition recorded_find_bursts (bl : list string) (a : ndarray elt) (url : string)
           (acc : list burst_index * list Z) (current_idx : Z)
  : result ((list burst_index * list Z) * Z) :=
  r <- find_bursts a bl url (fst acc) current_idx ;;
  Ok ((fst r, (snd acc ++ [current_idx])%list), snd r).

(** The loop of [one_day] run with the recorder in the place of
    [find_bursts]. *)
Definition recorded_loop (download : string -> result (option (ndarray elt)))
           (bl : list string) (urls : list string)
  : result (aligner_state (list burst_index * list Z)) :=
  foldM (one_day_body_via (recorded_find_bursts bl) download) urls
        (mk_aligner_state [] ([], []) 0).

(** What the recorded run leaves when the notes are dropped. *)
Definition without_notes (st : aligner_state (list burst_index * list Z))
  : loop_state elt :=
  mk_loop_state (seen_arrays st) (fst (accumulator st)) (cursor st).

(** [prefix_sums 0 [n1; n2; n3] = [0; n1; n1 + n2]]. *)
Fixpoint prefix_sums (start : Z) (counts : list Z) : list Z :=
  match counts with
  | [] => []
  | n :: counts' => start :: prefix_sums (start + n) counts'
  end.

(** Every file of [urls] downloads and decodes, giving [arrs] in order. *)
Definition decoded (download : string -> result (option (ndarray elt)))
           (urls : list string) (arrs : list (ndarray elt)) : Prop :=
  Forall2 (fun url a => download url = Ok (Some a)) urls arrs.

Definition has_pattern_A (filename : string) : Prop :=
  exists hhmmss, Re.search Re.pattern_A filename = Some hhmmss.

End Defs.

Arguments aligner_state : clear implicits.
Arguments mk_aligner_state {elt R}.
Arguments seen_arrays {elt R}.
Arguments accumulator {elt R}.
Arguments cursor {elt R}.

(** The rows of the label table, as the properties name them. *)

Module LabelsSpec.
Import Labels.

Definition skipped_line (line : string) : bool :=
  String.eqb (PyStr.strip line) ""
  || PyStr.startswith "#" line || PyStr.startswith "-" line.

Definition fields (line : string) : list string := PyStr.split tab line.

Definition field (i : nat) (line : string) : string := nth i (fields line) "".

Definition lists_station (station stations : string) : bool :=
  existsb (String.eqb station) (map PyStr.strip (PyStr.split "," stations)).



Definition date_of (year month day : Z) : string :=
  format_0d 4 year ++ format_0d 2 month ++ format_0d 2 day.

End LabelsSpec.

(** ** Sample data *)

Module Sample.

Definition url_0900 : string := "https://host/2025/01/01/S_20250101_090000_59.fit.gz".
Definition url_0915 : string := "https://host/2025/01/01/S_20250101_091500_59.fit.gz".
Definition url_0930 : string := "https://host/2025/01/01/S_20250101_093000_59.fit.gz".
Definition url_B : string := "https://host/2010/01/01/S_20100101_120000i.fit.gz".
Definition day_url : string := "https://host/2025/01/01/".

Definition samples (n : nat) : ndarray Z := mk_ndarray 1 n [repeat 0 n].

Definition small_1 : ndarray Z := mk_ndarray 2 3 [[1; 2; 3]; [4; 5; 6]].
Definition small_2 : ndarray Z := mk_ndarray 2 2 [[7; 8]; [9; 10]].

(** Three files of 900, 850 and 900 samples. *)
Definition download_3 (url : string) : result (option (ndarray Z)) :=
  if String.eqb url url_0900 then Ok (Some (samples 900))
  else if String.eqb url url_0915 then Ok (Some (samples 850))
  else if String.eqb url url_0930 then Ok (Some (samples 900))
  else Raise HTTPError.

Definition download_small (url : string) : result (option (ndarray Z)) :=
  if String.eqb url url_0900 then Ok (Some small_1)
  else if String.eqb url url_0915 then Ok (Some small_2)
  else Raise HTTPError.

(** A server that answers 404 for one URL, and decoders that always succeed. *)
Definition world_404 (missing : string) : world Z :=
  mk_world
    (fun url => Ok (mk_response (if String.eqb url missing then 404 else 200) []))
    (fun raw => Ok raw)
    (fun _ => Ok small_1).

Definition tab_s : string := String Labels.tab "".
Definition newline_s : string := String "010"%char "".

Definition row_4 : string :=
  "20250103" ++ tab_s ++ "03:00-03:01" ++ tab_s ++ "III" ++ tab_s ++ "GERMANY-DLR, ALASKA".
Definition row_5 : string :=
  "20250103" ++ tab_s ++ "04:00-04:01" ++ tab_s ++ "III" ++ tab_s ++ "ALASKA"
  ++ tab_s ++ "remark".
Definition table : string :=
  "# Date Time Type Stations" ++ newline_s ++ row_4 ++ newline_s ++ row_5 ++ newline_s.

End Sample.

Import Labels LabelsSpec Sample.

(** ** [usage] and [parse_args] *)

Module Cli.

Definition newline : string := String "010"%char "".

(** The lines [usage] prints before [sys.exit(1)]. *)
Definition usage_lines : list string :=
  [ "Usage: python one_day.py <station> <month> <day> <year> [start_time] [--save_burst_labels]";
    "";
    "Arguments:";
    "  station              Name of the observatory station (e.g. GERMANY-DLR)";
    "  year                 Four-digit year (e.g. 2025)";
    "  month                Two-digit month (01)";
    "  day                  Two-digit day (31)";
    "  start_time (optional) Time of the first recording as seen in the filename (e.g. 093000 for 09:30:00)";
    "  --save_burst_labels  Optional switch; if present, creates a npy file with the indexes when bursts start/end" ].

Definition usage_text : string := String.concat newline usage_lines.

Definition usage {A : Type} (printed_before : string) : result A :=
  Raise (SystemExit (printed_before ++ usage_text) 1).

(** The characters of which [str.isdigit] holds, among the code points up
    to U+00FF that a [string] carries: the decimal digits and the
    superscripts U+00B2, U+00B3 and U+00B9.  ([int] and [\d] accept the
    decimal digits only.) *)
Definition isdigit_char (c : ascii) : bool :=
  PyStr.is_digit c
  || (N_of_ascii c =? 178)%N || (N_of_ascii c =? 179)%N || (N_of_ascii c =? 185)%N.

(** [s.isdigit()]: not empty, digit characters only. *)
Definition isdigit (s : string) : bool :=
  match s with
  | EmptyString => false
  | _ => PyStr.all_chars isdigit_char s
  end.

Definition save_flag : string := "--save_burst_labels".

(** The body of the loop over [argv[5:]]; the state is
    [(start_time, save_burst_labels)]. *)
Definition parse_args_body (st : option string * bool) (arg : string)
  : result (option string * bool) :=
  let '(start_time, save_burst_labels) := st in
  if String.eqb arg save_flag then Ok (start_time, true)
  else if isdigit arg && (String.length arg =? 6)%nat
       then Ok (Some arg, save_burst_labels)
       else usage ("Unknown argument: " ++ arg ++ newline).

(** The tuple returned: [(station, year, month, day, start_time,
    save_burst_labels)]. *)
Definition parse_args (argv : list string)
  : result (string * string * string * string * string * bool) :=
  match argv with
  | _ :: station :: month :: day :: year :: rest =>
      st <- foldM parse_args_body rest (None, false) ;;
      let '(start_time, save_burst_labels) := st in
      let start_time := match start_time with
                        | None => "000000"
                        | Some t => t
                        end in
      Ok (station, year, month, day, start_time, save_burst_labels)
  | _ => usage ""
  end.

End Cli.

(** The test of line 285. *)
Definition time_arg (arg : string) : bool :=
  Cli.isdigit arg && (String.length arg =? 6)%nat.

(** The optional arguments [parse_args] accepts. *)
Definition optional_arg (arg : string) : bool :=
  String.eqb arg Cli.save_flag || time_arg arg.

(** What [parse_args] has printed when it meets an argument it does not
    know: the line of line 288, then the usage text. *)
Definition unknown_argument_text (arg : string) : string :=
  ("Unknown argument: " ++ arg ++ Cli.newline) ++ Cli.usage_text.

(** Six times the superscript two, U+00B2. *)
Definition superscript_twos : string :=
  String "178" (String "178" (String "178" (String "178" (String "178"
    (String "178" ""))))).

(** A string of ASCII characters. *)
Definition ascii_only (s : string) : bool :=
  PyStr.all_chars (fun c => (N_of_ascii c <? 128)%N) s.

(** The decimal digit at position [i], read off the character code. *)
Definition digit_at (i : nat) (s : string) : Z :=
  match String.get i s with
  | Some c => Z.of_N (N_of_ascii c) - 48
  | None => 0
  end.

(** The time of day a six-digit code HHMMSS denotes, in seconds. *)
Definition code_seconds (hhmmss : string) : Z :=
  (10 * digit_at 0 hhmmss + digit_at 1 hhmmss) * 3600
  + (10 * digit_at 2 hhmmss + digit_at 3 hhmmss) * 60
  + (10 * digit_at 4 hhmmss + digit_at 5 hhmmss).

(** [g] is the time code embedded in [f] under the pattern closed by [c]:
    six digits between an underscore and [c], at the leftmost such place. *)
Definition time_code (c : ascii) (f g : string) : Prop :=
  six_digits g = true /\
  exists pre post,
    f = (pre ++ String "_" (g ++ String c post))%string /\
    forall pre' g' post',
      six_digits g' = true ->
      f = (pre' ++ String "_" (g' ++ String c post'))%string ->
      (String.length pre <= String.length pre')%nat.

(** The (time, file) pairs of the files that carry a time code, in input
    order, the time read off the digits of the code. *)
Definition embedded_pairs (c : ascii) (files : list string) : list (Z * string) :=
  flat_map (fun f => match Re.search c f with
                     | Some g => [(code_seconds g, f)]
                     | None => []
                     end) files.

(** The last element of [l] that satisfies [p]. *)
Definition last_such {A : Type} (p : A -> bool) (l : list A) : option A :=
  List.find p (rev l).

(** Two digits: an hour, minute or second field. *)
Definition two_digits (s : string) : bool :=
  (String.length s =? 2)%nat && PyStr.all_chars PyStr.is_digit s.

(** A six-digit time code whose minutes and seconds are below 60. *)
Definition valid_time_code (s : string) : bool :=
  six_digits s
  && match PyStr.int (PyStr.slice 2 4 s), PyStr.int (PyStr.slice 4 6 s) with
     | Ok m, Ok sec => (m <? 60) && (sec <? 60)
     | _, _ => false
     end.

(** A range stored for a file of [n] samples that starts at [cursor]: its
    label is one of the burst strings, and it leaves the span of the file by
    at most the margin. *)
Definition range_near_file (bl : list string) (cursor n : Z) (e : burst_index) : Prop :=
  In (burst e) bl /\
  cursor - 240 <= start_idx e <= cursor + n - 240 /\
  cursor + 239 <= end_idx e <= cursor + n + 239 /\
  forall bstart bend,
    parse_burst (burst e) = Ok (bstart, bend) -> bstart <= bend -> 1 <= n ->
    start_idx e + 480 <= end_idx e.

(** A range stored for a day of [total] samples. *)
Definition range_within_day (bl : list string) (total : Z) (e : burst_index) : Prop :=
  In (burst e) bl /\
  -240 <= start_idx e <= total - 240 /\
  239 <= end_idx e <= total + 239.


(** ** [compute_snr]: the burst mask and the two flux selections

    Lines 25-36 of [compute_snr.py].  The means and the logarithm that follow
    are floating point and are not part of the model. *)

Module Snr.

(** A bound of a Python slice over a sequence of length [n]: a negative
    bound counts from the end, and both are clipped to [[0, n]]. *)
Definition slice_bound (n i : Z) : Z :=
  if i <? 0 then Z.max 0 (i + n) else Z.min i n.

Fixpoint set_true_from (p lo hi : Z) (mask : list bool) : list bool :=
  match mask with
  | [] => []
  | b :: mask' =>
      (if (lo <=? p) && (p <? hi) then true else b)
        :: set_true_from (p + 1) lo hi mask'
  end.

(** [mask[start:stop] = True] *)
Definition assign_true (start stop : Z) (mask : list bool) : list bool :=
  let n := Z.of_nat (List.length mask) in
  set_true_from 0 (slice_bound n start) (slice_bound n stop) mask.

(** Lines 29-33. *)
Definition burst_mask (n_times : nat) (burst_labels : list burst_index) : list bool :=
  fold_left
    (fun mask entry =>
       let start := Z.max 0 (start_idx entry) in
       let end_ := Z.min (Z.of_nat n_times - 1) (end_idx entry) in
       assign_true start (end_ + 1) mask)
    burst_labels (repeat false n_times).

(** [xs[mask]] for a boolean mask as long as [xs]. *)
Fixpoint select {A : Type} (mask : list bool) (xs : list A) : list A :=
  match mask, xs with
  | b :: mask', x :: xs' => if b then x :: select mask' xs' else select mask' xs'
  | _, _ => []
  end.

(** [flux_time[burst_mask]] and [flux_time[~burst_mask]], lines 35-36. *)
Definition inside_flux {A : Type} (flux_time : list A)
           (burst_labels : list burst_index) : list A :=
  select (burst_mask (List.length flux_time) burst_labels) flux_time.

Definition outside_flux {A : Type} (flux_time : list A)
           (burst_labels : list burst_index) : list A :=
  select (map negb (burst_mask (List.length flux_time) burst_labels)) flux_time.

End Snr.

(** Index [i] of a series of [n] samples is covered by the label [e]: from
    [start_idx] to [end_idx], an [end_idx] below -1 counting from the end of
    the series. *)
Definition covers (n : Z) (e : burst_index) (i : Z) : Prop :=
  start_idx e <= i /\
  (if -1 <=? end_idx e then i <= end_idx e else i <= n + end_idx e).

(** Formatting [n] with [width] digits gives [width] digits that [int] reads
    back as [n]. *)
Definition format_reads_back (width : nat) (n : nat) : bool :=
  (String.length (format_0d width (Z.of_nat n)) =? width)%nat
  && PyStr.all_chars PyStr.is_digit (format_0d width (Z.of_nat n))
  && match PyStr.int (format_0d width (Z.of_nat n)) with
     | Ok k => k =? Z.of_nat n
     | Raise _ => false
     end.

(** * Properties *)

(** ** Loops and time codes *)

Lemma foldM_app {A S} (body : S -> A -> result S) xs ys st :
  foldM body (xs ++ ys) st = bind (foldM body xs st) (foldM body ys).
Proof.
  revert st. induction xs as [|x xs IH]; intros st; simpl; [reflexivity|].
  destruct (body st x); simpl; auto.
Qed.

Lemma digit_val_range c : PyStr.is_digit c = true -> 0 <= PyStr.digit_val c <= 9.
Proof.
  destruct c as [[] [] [] [] [] [] [] []]; simpl; intros H; try discriminate H; lia.
Qed.

Lemma int_two_digits a b :
  PyStr.is_digit a = true -> PyStr.is_digit b = true ->
  PyStr.int (String a (String b "")) = Ok (10 * PyStr.digit_val a + PyStr.digit_val b).
Proof.
  intros Ha Hb.
  destruct a as [[] [] [] [] [] [] [] []]; try discriminate Ha;
  unfold PyStr.int; simpl; rewrite Hb; reflexivity.
Qed.

Lemma six_digits_inv s :
  six_digits s = true ->
  exists d1 d2 d3 d4 d5 d6,
    s = String d1 (String d2 (String d3 (String d4 (String d5 (String d6 ""))))) /\
    PyStr.is_digit d1 = true /\ PyStr.is_digit d2 = true /\ PyStr.is_digit d3 = true /\
    PyStr.is_digit d4 = true /\ PyStr.is_digit d5 = true /\ PyStr.is_digit d6 = true.
Proof.
  unfold six_digits. intros H. apply andb_true_iff in H as [Hl Hd].
  destruct s as [|d1 [|d2 [|d3 [|d4 [|d5 [|d6 [|d7 s]]]]]]]; try discriminate Hl.
  simpl in Hd. repeat (apply andb_true_iff in Hd as [? Hd]).
  exists d1, d2, d3, d4, d5, d6. repeat split; assumption.
Qed.

Lemma hhmmss_to_seconds_ok s :
  six_digits s = true ->
  exists t, hhmmss_to_seconds s = Ok t /\ 0 <= t.
Proof.
  intros H. destruct (six_digits_inv s H) as (d1&d2&d3&d4&d5&d6&->&H1&H2&H3&H4&H5&H6).
  unfold hhmmss_to_seconds, PyStr.slice. simpl String.substring.
  rewrite !int_two_digits by assumption. cbn [bind].
  eexists; split; [reflexivity|].
  pose proof (digit_val_range _ H1). pose proof (digit_val_range _ H2).
  pose proof (digit_val_range _ H3). pose proof (digit_val_range _ H4).
  pose proof (digit_val_range _ H5). pose proof (digit_val_range _ H6). lia.
Qed.

Lemma match_here_six closing s g :
  Re.match_here closing s = Some g -> six_digits g = true.
Proof.
  unfold Re.match_here.
  destruct s as [|u [|d1 [|d2 [|d3 [|d4 [|d5 [|d6 [|t s]]]]]]]]; try discriminate.
  destruct (_ && _) eqn:E; [|discriminate].
  intros [= <-].
  repeat (apply andb_true_iff in E as [E ?]).
  unfold six_digits; simpl. repeat (apply andb_true_iff; split); auto.
Qed.

Lemma search_cons closing c s :
  Re.search closing (String c s) =
  match Re.match_here closing (String c s) with
  | Some g => Some g
  | None => Re.search closing s
  end.
Proof. reflexivity. Qed.

Lemma search_six closing s g :
  Re.search closing s = Some g -> six_digits g = true.
Proof.
  induction s as [|c s IH].
  - discriminate.
  - rewrite search_cons.
    destruct (Re.match_here closing (String c s)) eqn:E.
    + intros [= <-]. eapply match_here_six; eauto.
    + exact IH.
Qed.

Lemma search_seconds closing s g :
  Re.search closing s = Some g -> exists t, hhmmss_to_seconds g = Ok t /\ 0 <= t.
Proof. intros H. apply hhmmss_to_seconds_ok. eapply search_six; eauto. Qed.

(** ** The sort *)

Section SortFacts.
Context {A : Type} (key : A -> Z).

Lemma insert_by_perm x l : Permutation (x :: l) (insert_by key x l).
Proof.
  induction l as [|y l IH]; simpl; [reflexivity|].
  destruct (key x <=? key y); [reflexivity|].
  rewrite perm_swap. constructor. exact IH.
Qed.

Lemma sort_by_perm l : Permutation l (sort_by key l).
Proof.
  induction l as [|x l IH]; simpl; [constructor|].
  rewrite <- insert_by_perm. constructor. exact IH.
Qed.

Lemma insert_by_sorted x l :
  StronglySorted (fun a b => key a <= key b) l ->
  StronglySorted (fun a b => key a <= key b) (insert_by key x l).
Proof.
  induction 1 as [|y l Hs IH Hy]; simpl.
  - repeat constructor.
  - destruct (key x <=? key y) eqn:E.
    + apply Z.leb_le in E. constructor; [constructor; assumption|].
      constructor; [exact E|].
      rewrite Forall_forall in Hy |- *. intros z Hz. specialize (Hy z Hz). lia.
    + apply Z.leb_gt in E. constructor; [exact IH|].
      rewrite Forall_forall in Hy |- *. intros z Hz.
      apply (Permutation_in _ (Permutation_sym (insert_by_perm x l))) in Hz.
      destruct Hz as [<-|Hz]; [lia|auto].
Qed.

Lemma sort_by_sorted l : StronglySorted (fun a b => key a <= key b) (sort_by key l).
Proof.
  induction l as [|x l IH]; simpl; [constructor|].
  apply insert_by_sorted, IH.
Qed.

Lemma insert_by_filter k x l :
  filter (fun a => key a =? k) (insert_by key x l) =
  filter (fun a => key a =? k) (x :: l).
Proof.
  induction l as [|y l IH]; [reflexivity|].
  cbn [insert_by]. destruct (key x <=? key y) eqn:E; [reflexivity|].
  apply Z.leb_gt in E.
  cbn [filter] in *. rewrite IH.
  destruct (key x =? k) eqn:Ex, (key y =? k) eqn:Ey; try reflexivity.
  apply Z.eqb_eq in Ex, Ey. lia.
Qed.

Lemma sort_by_stable k l :
  filter (fun a => key a =? k) (sort_by key l) = filter (fun a => key a =? k) l.
Proof.
  induction l as [|x l IH]; [reflexivity|].
  cbn [sort_by]. rewrite insert_by_filter. cbn [filter]. rewrite IH. reflexivity.
Qed.

Lemma sort_by_stable_sorted l : stable_sorted key l (sort_by key l).
Proof.
  split; [apply sort_by_perm|]. split; [apply sort_by_sorted|].
  intros k. apply sort_by_stable.
Qed.

End SortFacts.

Lemma first_index_from_spec off times i :
  match first_index_from off times i with
  | Some j => exists n, j = (i + n)%nat /\ (n < List.length times)%nat /\
                        off <= nth n times 0 /\
                        forall m, (m < n)%nat -> nth m times 0 < off
  | None => forall t, In t times -> t < off
  end.
Proof.
  revert i. induction times as [|t ts IH]; intros i; simpl.
  - intros t [].
  - destruct (off <=? t) eqn:E.
    + apply Z.leb_le in E. exists 0%nat. repeat split; try lia.
    + apply Z.leb_gt in E. specialize (IH (S i)).
      destruct (first_index_from off ts (S i)) as [j|].
      * destruct IH as (n & -> & Hn & Hge & Hlt).
        exists (S n). split; [lia|]. split; [simpl; lia|]. split; [exact Hge|].
        intros [|m] Hm; [exact E|]. apply Hlt. lia.
      * intros t' [<-|Ht']; [exact E|auto].
Qed.

Lemma rotation_index_spec off times :
  first_position_ge off times (rotation_index off times).
Proof.
  unfold rotation_index, first_position_ge.
  pose proof (first_index_from_spec off times 0) as H.
  destruct (first_index_from off times 0) as [j|].
  - destruct H as (n & -> & Hn & Hge & Hlt). left. simpl. auto.
  - right. auto.
Qed.

Lemma rotation_index_none off times :
  (forall t, In t times -> t < off) -> rotation_index off times = 0%nat.
Proof.
  intros H. unfold rotation_index.
  pose proof (first_index_from_spec off times 0) as Hs.
  destruct (first_index_from off times 0) as [j|]; [|reflexivity].
  destruct Hs as (n & -> & Hn & Hge & _).
  specialize (H (nth n times 0) (nth_In _ _ Hn)). lia.
Qed.

(** ** [circular_sort] *)

Lemma time_file_pairs_ok c files :
  time_file_pairs c files = Ok (matched_pairs c files).
Proof.
  induction files as [|f fs IH]; [reflexivity|].
  cbn [time_file_pairs matched_pairs flat_map]. unfold file_time.
  destruct (Re.search c f) as [g|] eqn:E.
  - destruct (search_seconds _ _ _ E) as (t & -> & _). cbn [bind].
    rewrite IH. reflexivity.
  - exact IH.
Qed.

Lemma matched_pairs_snd c files :
  map snd (matched_pairs c files) = filter (matches c) files.
Proof.
  induction files as [|f fs IH]; [reflexivity|].
  cbn [matched_pairs flat_map filter]. unfold matches, file_time.
  destruct (Re.search c f) as [g|] eqn:E.
  - destruct (search_seconds _ _ _ E) as (t & -> & _). simpl. f_equal. exact IH.
  - exact IH.
Qed.

Lemma circular_sort_unfold files offset url c off :
  choose_pattern files url = Ok c ->
  hhmmss_to_seconds offset = Ok off ->
  circular_sort files offset url =
  let sorted := sort_by fst (matched_pairs c files) in
  let idx := rotation_index off (map fst sorted) in
  Ok (map snd (skipn idx sorted ++ firstn idx sorted)).
Proof.
  intros Hc Ho. unfold circular_sort. rewrite Hc. cbn [bind].
  rewrite time_file_pairs_ok. cbn [bind]. rewrite Ho. cbn [bind].
  rewrite map_app. reflexivity.
Qed.

Lemma choose_pattern_cases f0 rest url :
  choose_pattern (f0 :: rest) url =
  if matches Re.pattern_A f0 then Ok Re.pattern_A
  else if matches Re.pattern_B f0 then Ok Re.pattern_B
  else Raise (SystemExit (no_format_message url) 0).
Proof.
  unfold choose_pattern, matches.
  destruct (Re.search Re.pattern_A f0); [reflexivity|].
  destruct (Re.search Re.pattern_B f0); reflexivity.
Qed.

Lemma int_raise s e : PyStr.int s = Raise e -> e = ValueError.
Proof.
  unfold PyStr.int. destruct (match PyStr.lstrip_by PyStr.is_c_space s with
                              | EmptyString => _ | String _ _ => _ end);
    [discriminate|]. intros [= <-]. reflexivity.
Qed.

Lemma hhmmss_to_seconds_raise s e : hhmmss_to_seconds s = Raise e -> e = ValueError.
Proof.
  unfold hhmmss_to_seconds.
  destruct (PyStr.int (PyStr.slice 0 2 s)) eqn:E1; cbn [bind];
    [|intros [= <-]; eapply int_raise; eauto].
  destruct (PyStr.int (PyStr.slice 2 4 s)) eqn:E2; cbn [bind];
    [|intros [= <-]; eapply int_raise; eauto].
  destruct (PyStr.int (PyStr.slice 4 6 s)) eqn:E3; cbn [bind];
    [discriminate|intros [= <-]; eapply int_raise; eauto].
Qed.

Lemma circular_sort_raise_choose files offset url e :
  choose_pattern files url = Raise e -> circular_sort files offset url = Raise e.
Proof. intros H. unfold circular_sort. rewrite H. reflexivity. Qed.

Lemma circular_sort_members files offset url c out :
  choose_pattern files url = Ok c ->
  circular_sort files offset url = Ok out ->
  Permutation out (filter (matches c) files).
Proof.
  intros Hc Hout. unfold circular_sort in Hout. rewrite Hc in Hout. cbn [bind] in Hout.
  rewrite time_file_pairs_ok in Hout. cbn [bind] in Hout.
  destruct (hhmmss_to_seconds offset) as [off|]; [|discriminate]. cbn [bind] in Hout.
  injection Hout as <-.
  rewrite <- map_app, <- matched_pairs_snd.
  apply Permutation_map.
  rewrite Permutation_app_comm, firstn_skipn.
  symmetry. apply sort_by_perm.
Qed.

(** The time of a file is read off the digits of its name: the model's
    [hhmmss_to_seconds] of the code [re.search] finds is [code_seconds] of
    the six digits at the leftmost place where the pattern fits. *)
Lemma digit_code c :
  PyStr.is_digit c = true -> Z.of_N (N_of_ascii c) - 48 = PyStr.digit_val c.
Proof.
  destruct c as [[] [] [] [] [] [] [] []]; simpl; intros H;
    try discriminate H; reflexivity.
Qed.

Lemma hhmmss_to_seconds_code g :
  six_digits g = true -> hhmmss_to_seconds g = Ok (code_seconds g).
Proof.
  intros H. destruct (six_digits_inv g H) as (d1&d2&d3&d4&d5&d6&->&H1&H2&H3&H4&H5&H6).
  unfold hhmmss_to_seconds, PyStr.slice. cbn [String.substring Nat.sub].
  rewrite !int_two_digits by assumption. cbn [bind].
  unfold code_seconds, digit_at. cbn [String.get].
  rewrite !digit_code by assumption. reflexivity.
Qed.

Lemma matched_pairs_embedded c files :
  matched_pairs c files = embedded_pairs c files.
Proof.
  induction files as [|f fs IH]; [reflexivity|].
  cbn [matched_pairs embedded_pairs flat_map]. unfold file_time.
  destruct (Re.search c f) as [g|] eqn:E.
  - rewrite (hhmmss_to_seconds_code g (search_six _ _ _ E)).
    cbn [app]. f_equal. exact IH.
  - exact IH.
Qed.

Lemma match_here_sound c f g :
  Re.match_here c f = Some g ->
  six_digits g = true /\ exists post, f = String "_" (g ++ String c post).
Proof.
  intros H. split; [eapply match_here_six; exact H|].
  unfold Re.match_here in H.
  destruct f as [|u [|d1 [|d2 [|d3 [|d4 [|d5 [|d6 [|t post]]]]]]]]; try discriminate H.
  destruct (_ && _) eqn:E; [|discriminate H]. injection H as <-.
  repeat (apply andb_true_iff in E as [E ?]).
  apply Ascii.eqb_eq in E. subst u.
  match goal with Ht : Ascii.eqb t c = true |- _ => apply Ascii.eqb_eq in Ht; subst t end.
  exists post. reflexivity.
Qed.

Lemma match_here_complete c g post :
  six_digits g = true ->
  Re.match_here c (String "_" (g ++ String c post)) = Some g.
Proof.
  intros H. destruct (six_digits_inv g H) as (d1&d2&d3&d4&d5&d6&->&H1&H2&H3&H4&H5&H6).
  cbn [String.append Re.match_here].
  rewrite H1, H2, H3, H4, H5, H6, !Ascii.eqb_refl. reflexivity.
Qed.

Lemma search_time_code c f g :
  Re.search c f = Some g -> time_code c f g.
Proof.
  revert g. induction f as [|a s IH]; intros g H; [discriminate H|].
  rewrite search_cons in H.
  destruct (Re.match_here c (String a s)) as [g0|] eqn:E.
  - injection H as <-. destruct (match_here_sound _ _ _ E) as [H6 (post & Hf)].
    split; [exact H6|]. exists "", post. split; [exact Hf|].
    intros; cbn; lia.
  - destruct (IH g H) as [H6 (pre & post & Hf & Hleft)].
    split; [exact H6|]. exists (String a pre), post.
    split; [cbn; rewrite Hf; reflexivity|].
    intros pre' g' post' H6' Hf'. destruct pre' as [|a' pre'].
    + cbn [String.append] in Hf'. rewrite Hf' in E.
      rewrite (match_here_complete c g' post' H6') in E. discriminate E.
    + cbn [String.append] in Hf'. injection Hf' as _ Hs.
      specialize (Hleft pre' g' post' H6' Hs). cbn. lia.
Qed.

Lemma time_code_search c f g :
  time_code c f g -> Re.search c f = Some g.
Proof.
  intros [H6 (pre & post & Hf & Hleft)]. subst f.
  induction pre as [|a pre IH].
  - cbn [String.append]. rewrite search_cons.
    rewrite (match_here_complete c g post H6). reflexivity.
  - cbn [String.append]. rewrite search_cons.
    destruct (Re.match_here c (String a (pre ++ String "_" (g ++ String c post))))
      as [g0|] eqn:E.
    + destruct (match_here_sound _ _ _ E) as [H0 (post0 & Hf0)].
      specialize (Hleft "" g0 post0 H0 Hf0). cbn in Hleft. lia.
    + apply IH. intros pre' g' post' H6' Hf'.
      specialize (Hleft (String a pre') g' post' H6').
      cbn in Hleft. rewrite Hf' in Hleft. specialize (Hleft eq_refl). lia.
Qed.

Lemma embedded_pairs_codes c files :
  Forall (fun p => exists g, time_code c (snd p) g /\ fst p = code_seconds g)
         (embedded_pairs c files).
Proof.
  induction files as [|f fs IH]; [constructor|].
  cbn [embedded_pairs flat_map].
  destruct (Re.search c f) as [g|] eqn:E; [|exact IH].
  constructor; [|exact IH]. exists g. split; [apply search_time_code, E|reflexivity].
Qed.

Lemma embedded_pairs_complete c files f g :
  In f files -> time_code c f g -> In (code_seconds g, f) (embedded_pairs c files).
Proof.
  intros Hin Ht. apply time_code_search in Ht.
  unfold embedded_pairs. apply in_flat_map. exists f. split; [exact Hin|].
  rewrite Ht. left. reflexivity.
Qed.

(** C5. Once the pattern is chosen and the offset is six digits,
    [circular_sort] returns the file names that carry a time code, sorted
    stably and ascending by the time of day their code denotes (hours, minutes
    and seconds read off the six digits found in the name), and rotated at the
    first sorted position whose time is at least the offset's; when every time
    is below the offset the position is 0 and the output is the sorted order
    unchanged. *)
Theorem circular_sort_by_embedded_time files offset url c :
  choose_pattern files url = Ok c ->
  six_digits offset = true ->
  exists sorted idx,
    stable_sorted fst (embedded_pairs c files) sorted /\
    Forall (fun p => exists g, time_code c (snd p) g /\ fst p = code_seconds g) sorted /\
    (forall f g, In f files -> time_code c f g -> In (code_seconds g, f) sorted) /\
    first_position_ge (code_seconds offset) (map fst sorted) idx /\
    circular_sort files offset url =
      Ok (map snd (skipn idx sorted ++ firstn idx sorted)) /\
    ((forall p, In p sorted -> fst p < code_seconds offset) ->
     circular_sort files offset url = Ok (map snd sorted)).
Proof.
  intros Hc Ho. pose proof (hhmmss_to_seconds_code offset Ho) as Hoff.
  pose proof (circular_sort_unfold files offset url c _ Hc Hoff) as Hu.
  rewrite matched_pairs_embedded in Hu. cbv zeta in Hu.
  pose proof (sort_by_stable_sorted fst (embedded_pairs c files)) as Hst.
  exists (sort_by fst (embedded_pairs c files)),
    (rotation_index (code_seconds offset)
       (map fst (sort_by fst (embedded_pairs c files)))).
  split; [exact Hst|]. destruct Hst as [Hperm _].
  split; [apply (Permutation_Forall Hperm), embedded_pairs_codes|].
  split.
  { intros f g Hin Ht. apply (Permutation_in _ Hperm).
    apply embedded_pairs_complete; assumption. }
  split; [apply rotation_index_spec|].
  split; [exact Hu|].
  intros Hlt. rewrite Hu. rewrite rotation_index_none.
  - cbn [skipn firstn]. rewrite app_nil_r. reflexivity.
  - intros t Ht. apply in_map_iff in Ht as (p & <- & Hp). auto.
Qed.

(** The spec's example: the times 093000, 100000, 080000 with offset 090000
    come out as 093000, 100000, 080000, also when the files are listed in
    another order. *)
Lemma circular_sort_by_embedded_time_example :
  (circular_sort ["S_20250101_093000_59.fit.gz"; "S_20250101_100000_59.fit.gz";
                  "S_20250101_080000_59.fit.gz"] "090000" "u" =
     Ok ["S_20250101_093000_59.fit.gz"; "S_20250101_100000_59.fit.gz";
         "S_20250101_080000_59.fit.gz"] /\
   circular_sort ["S_20250101_100000_59.fit.gz"; "S_20250101_080000_59.fit.gz";
                  "S_20250101_093000_59.fit.gz"] "090000" "u" =
     Ok ["S_20250101_093000_59.fit.gz"; "S_20250101_100000_59.fit.gz";
         "S_20250101_080000_59.fit.gz"] /\
   map code_seconds ["093000"; "100000"; "080000"; "090000"] =
     [34200; 36000; 28800; 32400]) /\
  let files := ["S_20250101_100000_59.fit.gz"; "S_20250101_080000_59.fit.gz";
                "S_20250101_093000_59.fit.gz"] in
  exists sorted idx,
    stable_sorted fst (embedded_pairs Re.pattern_A files) sorted /\
    Forall (fun p => exists g, time_code Re.pattern_A (snd p) g /\
                               fst p = code_seconds g) sorted /\
    (forall f g, In f files -> time_code Re.pattern_A f g ->
                 In (code_seconds g, f) sorted) /\
    first_position_ge (code_seconds "090000") (map fst sorted) idx /\
    circular_sort files "090000" "u" =
      Ok (map snd (skipn idx sorted ++ firstn idx sorted)) /\
    ((forall p, In p sorted -> fst p < code_seconds "090000") ->
     circular_sort files "090000" "u" = Ok (map snd sorted)).
Proof.
  split; [vm_compute; repeat split|].
  apply (circular_sort_by_embedded_time _ "090000" "u" Re.pattern_A); reflexivity.
Defined.

(** C6. The output of [circular_sort] is a rearrangement of the input file
    names that match the chosen pattern, each kept exactly as often as it
    occurs in the input; for a six-digit offset there is such an output. *)
Theorem circular_sort_permutation files offset url c :
  choose_pattern files url = Ok c ->
  (six_digits offset = true -> exists out, circular_sort files offset url = Ok out) /\
  (forall out,
      circular_sort files offset url = Ok out ->
      Permutation out (filter (matches c) files) /\
      forall f, count_occ string_dec out f =
                count_occ string_dec (filter (matches c) files) f).
Proof.
  intros Hc. split.
  - intros Ho. destruct (hhmmss_to_seconds_ok _ Ho) as (off & Hoff & _).
    eexists. apply (circular_sort_unfold _ _ _ _ _ Hc Hoff).
  - intros out Hout.
    pose proof (circular_sort_members _ _ _ _ _ Hc Hout) as Hp.
    split; [exact Hp|]. intros f. apply Permutation_count_occ, Hp.
Qed.

Lemma circular_sort_permutation_example :
  let files := ["S_20250101_093000_59.fit.gz"; "index.html";
                "S_20250101_080000_59.fit.gz"] in
  (six_digits "090000" = true ->
   exists out, circular_sort files "090000" "u" = Ok out) /\
  (forall out,
      circular_sort files "090000" "u" = Ok out ->
      Permutation out (filter (matches Re.pattern_A) files) /\
      forall f, count_occ string_dec out f =
                count_occ string_dec (filter (matches Re.pattern_A) files) f).
Proof.
  apply (circular_sort_permutation _ "090000" "u" Re.pattern_A). reflexivity.
Defined.

(** C2, as the code has it. The pattern is decided on the first file name
    alone: pattern A when it matches the first file name, otherwise pattern B
    when that matches the first file name, otherwise the run exits after
    printing the message that ends with the URL. The chosen pattern is then
    applied to every file name, and the output holds exactly the input file
    names that match it. *)
Theorem choose_pattern_first_file f0 rest offset url :
  (choose_pattern (f0 :: rest) url = Ok Re.pattern_A <->
     matches Re.pattern_A f0 = true) /\
  (choose_pattern (f0 :: rest) url = Ok Re.pattern_B <->
     matches Re.pattern_A f0 = false /\ matches Re.pattern_B f0 = true) /\
  (circular_sort (f0 :: rest) offset url =
     Raise (SystemExit (no_format_message url) 0) <->
     matches Re.pattern_A f0 = false /\ matches Re.pattern_B f0 = false) /\
  (forall c out,
     choose_pattern (f0 :: rest) url = Ok c ->
     circular_sort (f0 :: rest) offset url = Ok out ->
     forall f, In f out <-> In f (f0 :: rest) /\ matches c f = true).
Proof.
  split; [|split; [|split]].
  - rewrite choose_pattern_cases.
    destruct (matches Re.pattern_A f0), (matches Re.pattern_B f0);
      split; intros H; try reflexivity; try discriminate H.
  - rewrite choose_pattern_cases.
    destruct (matches Re.pattern_A f0), (matches Re.pattern_B f0);
      split; intros H; try reflexivity; try discriminate H;
      try (destruct H; discriminate); auto.
  - split.
    + intros H. unfold circular_sort in H. rewrite choose_pattern_cases in H.
      destruct (matches Re.pattern_A f0), (matches Re.pattern_B f0); auto;
        cbn [bind] in H; rewrite time_file_pairs_ok in H; cbn [bind] in H;
        destruct (hhmmss_to_seconds offset) as [off|e] eqn:E; try discriminate H;
        apply hhmmss_to_seconds_raise in E; subst e; discriminate H.
    + intros [Ha Hb]. apply circular_sort_raise_choose.
      rewrite choose_pattern_cases, Ha, Hb. reflexivity.
  - intros c out Hc Hout f.
    pose proof (circular_sort_members _ _ _ _ _ Hc Hout) as Hp.
    rewrite <- filter_In. split; intros H.
    + eapply Permutation_in; eauto.
    + eapply Permutation_in; [symmetry|]; eauto.
Qed.

(** C2, as stated, fails: with a first file name of pattern B and a second of
    pattern A the whole set has a pattern-A match, yet pattern B is chosen
    and the pattern-A file is left out; with a first file name of neither
    pattern the run exits although a later file name matches pattern A. *)
Lemma fallback_decided_by_first_file :
  (let files := ["S_20100101_120000i.fit.gz"; "S_20100101_130000_59.fit.gz"] in
   whole_set_pattern files = Some Re.pattern_A /\
   choose_pattern files "u" = Ok Re.pattern_B /\
   circular_sort files "000000" "u" = Ok ["S_20100101_120000i.fit.gz"]) /\
  (let files := ["S_readme.txt"; "S_20100101_130000_59.fit.gz"] in
   whole_set_pattern files = Some Re.pattern_A /\
   circular_sort files "000000" "u" = Raise (SystemExit (no_format_message "u") 0)).
Proof. vm_compute. repeat split. Qed.

(** ** [find_bursts] *)

Lemma clamp_max_min x lo hi : lo <= hi -> clamp x lo hi = Z.max lo (Z.min x hi).
Proof.
  intros H. unfold clamp.
  destruct (Z.ltb_spec x lo), (Z.ltb_spec hi x); lia.
Qed.

Lemma file_end_lt bstart fstart nx :
  (inject_Z bstart < file_end fstart nx)%Q <-> (bstart - fstart) * 4 < nx.
Proof.
  unfold file_end, Qlt, Qplus, Qdiv, Qmult, Qinv, inject_Z. simpl. lia.
Qed.

Lemma Qltb_lt x y : Qltb x y = true <-> (x < y)%Q.
Proof.
  unfold Qltb. rewrite negb_true_iff. split.
  - intros H. apply Qnot_le_lt. intros Hle. apply Qle_bool_iff in Hle. congruence.
  - intros H. destruct (Qle_bool y x) eqn:E; [|reflexivity].
    apply Qle_bool_iff in E. exfalso. apply (Qlt_not_le _ _ H E).
Qed.

Lemma overlaps_dec_code bstart bend fstart nx :
  Qltb (inject_Z bstart) (file_end fstart nx) && (fstart <=? bend) = true <->
  overlaps bstart bend fstart nx.
Proof.
  unfold overlaps. rewrite andb_true_iff, Qltb_lt, Z.leb_le.
  unfold file_end. intuition lia.
Qed.

Lemma find_bursts_body_aligned nx fstart cursor results b :
  parses b ->
  exists entries,
    find_bursts_body nx fstart cursor results b = Ok (results ++ entries)%list /\
    aligned fstart nx cursor b entries.
Proof.
  intros [[bstart bend] Hp]. unfold find_bursts_body. rewrite Hp. cbn [bind].
  destruct (Qltb _ _ && _) eqn:E.
  - apply overlaps_dec_code in E.
    exists [aligned_range b bstart bend fstart nx cursor]. split.
    + do 3 f_equal. unfold aligned_range.
      destruct E as [E1 E2]. apply file_end_lt in E1.
      unfold clamp.
      destruct (Z.ltb_spec ((bstart - fstart) * 4) 0),
               (Z.ltb_spec (nx - 1) ((bstart - fstart) * 4)),
               (Z.ltb_spec ((bend - fstart) * 4) 0),
               (Z.ltb_spec (nx - 1) ((bend - fstart) * 4)); f_equal; lia.
    + exists bstart, bend. split; [exact Hp|]. left. split; [exact E|reflexivity].
  - exists []. split; [rewrite app_nil_r; reflexivity|].
    exists bstart, bend. split; [exact Hp|]. right. split; [|reflexivity].
    intros Ho. apply overlaps_dec_code in Ho. congruence.
Qed.

Lemma find_bursts_loop_aligned nx fstart cursor bl : forall results,
  Forall parses bl ->
  exists added,
    foldM (find_bursts_body nx fstart cursor) bl results =
      Ok (results ++ List.concat added)%list /\
    Forall2 (aligned fstart nx cursor) bl added.
Proof.
  induction bl as [|b bl IH]; intros results Hall.
  - exists []. split; [simpl; rewrite app_nil_r; reflexivity|constructor].
  - inversion Hall as [|? ? Hb Hbl]; subst.
    destruct (find_bursts_body_aligned nx fstart cursor results b Hb) as (e & He & Ha).
    destruct (IH (results ++ e)%list Hbl) as (added & Hadd & Hf).
    exists (e :: added). split; [|constructor; assumption].
    cbn [foldM]. rewrite He. cbn [bind]. rewrite Hadd.
    cbn [List.concat]. rewrite app_assoc. reflexivity.
Qed.

Lemma aligned_iff fstart n cursor b entries bstart bend :
  aligned fstart n cursor b entries ->
  parse_burst b = Ok (bstart, bend) ->
  (entries = [aligned_range b bstart bend fstart n cursor]
   <-> overlaps bstart bend fstart n) /\
  (entries = [] <-> ~ overlaps bstart bend fstart n).
Proof.
  intros (bs & be & Hp' & Hcase) Hp. rewrite Hp in Hp'. injection Hp' as <- <-.
  destruct Hcase as [[Ho ->]|[Hno ->]].
  - split; split; intros H; try assumption; try reflexivity;
      try discriminate H. contradiction.
  - split; split; intros H; try assumption; try reflexivity;
      try discriminate H. contradiction.
Qed.

Lemma Forall2_combine {A B : Type} (P : A -> B -> Prop) (l : list A) (l' : list B) :
  Forall2 P l l' -> forall x y, In (x, y) (combine l l') -> P x y.
Proof.
  induction 1 as [|a b l l' Hab Hrest IH]; intros x y Hin; [destruct Hin|].
  destruct Hin as [[= <- <-]|Hin]; [exact Hab|apply IH, Hin].
Qed.

Section FindBursts.
Context {elt : Type}.
Implicit Types (arr : ndarray elt).

Lemma find_bursts_ok arr bl filename results cursor hhmmss fstart :
  Re.search Re.pattern_A filename = Some hhmmss ->
  hhmmss_to_seconds hhmmss = Ok fstart ->
  Forall parses bl ->
  exists added,
    find_bursts arr bl filename results cursor =
      Ok ((results ++ List.concat added)%list, cursor + Z.of_nat (shape1 arr)) /\
    Forall2 (aligned fstart (Z.of_nat (shape1 arr)) cursor) bl added.
Proof.
  intros Hs Hh Hall. unfold find_bursts. rewrite Hs, Hh. cbn [bind].
  destruct (find_bursts_loop_aligned (Z.of_nat (shape1 arr)) fstart cursor bl results Hall)
    as (added & Hadd & Hf).
  exists added. rewrite Hadd. split; [reflexivity|exact Hf].
Qed.

Lemma find_bursts_no_pattern_A arr bl filename results cursor :
  Re.search Re.pattern_A filename = None ->
  find_bursts arr bl filename results cursor = Raise AttributeError.
Proof. intros H. unfold find_bursts. rewrite H. reflexivity. Qed.

(** C3. For a file that starts at [fstart] seconds and holds [shape1 arr]
    samples, [find_bursts] appends to the accumulator, burst by burst and in
    order, exactly one range for a burst with parsed endpoints
    [(bstart, bend)] if and only if [bstart < fstart + shape1 arr / 4] and
    [bend >= fstart], and nothing otherwise; the range appended is
    [aligned_range]: both endpoints clipped to [[0, shape1 arr - 1]], moved
    by the cursor, then widened by 240 samples with no second clipping. *)
Theorem find_bursts_aligns arr bl filename results cursor hhmmss fstart :
  Re.search Re.pattern_A filename = Some hhmmss ->
  hhmmss_to_seconds hhmmss = Ok fstart ->
  Forall parses bl ->
  exists added,
    find_bursts arr bl filename results cursor =
      Ok ((results ++ List.concat added)%list, cursor + Z.of_nat (shape1 arr)) /\
    Forall2 (aligned fstart (Z.of_nat (shape1 arr)) cursor) bl added /\
    forall b entries bstart bend,
      In (b, entries) (combine bl added) ->
      parse_burst b = Ok (bstart, bend) ->
      (entries = [aligned_range b bstart bend fstart (Z.of_nat (shape1 arr)) cursor]
       <-> overlaps bstart bend fstart (Z.of_nat (shape1 arr))) /\
      (entries = [] <-> ~ overlaps bstart bend fstart (Z.of_nat (shape1 arr))).
Proof.
  intros Hs Hh Hall.
  destruct (find_bursts_ok arr bl filename results cursor hhmmss fstart Hs Hh Hall)
    as (added & Hfb & Hal).
  exists added. split; [exact Hfb|]. split; [exact Hal|].
  intros b entries bstart bend Hin Hp.
  apply (aligned_iff fstart (Z.of_nat (shape1 arr)) cursor b entries bstart bend);
    [|exact Hp].
  apply (Forall2_combine _ _ _ Hal _ _ Hin).
Qed.

End FindBursts.



(** ** The loop of [one_day] *)

Section OneDay.
Context {elt : Type}.
Implicit Types (a arr : ndarray elt) (st : loop_state elt)
         (download : string -> result (option (ndarray elt))).

Lemma total_samples_app (xs ys : list (ndarray elt)) :
  total_samples (xs ++ ys) = total_samples xs + total_samples ys.
Proof.
  unfold total_samples. rewrite map_app, list_sum_app. lia.
Qed.

Lemma total_samples_cons a (xs : list (ndarray elt)) :
  total_samples (a :: xs) = nx a + total_samples xs.
Proof. unfold total_samples, nx. simpl. lia. Qed.

Lemma total_samples_nonneg (xs : list (ndarray elt)) : 0 <= total_samples xs.
Proof. unfold total_samples. lia. Qed.

Lemma one_day_body_some download bl st url a :
  download url = Ok (Some a) ->
  has_pattern_A url -> Forall parses bl ->
  exists added,
    one_day_body download (Some bl) st url =
      Ok (mk_loop_state (arrays st ++ [a]) (burst_indices st ++ added)
                        (current_idx st + nx a)) /\
    find_bursts a bl url (burst_indices st) (current_idx st) =
      Ok ((burst_indices st ++ added)%list, current_idx st + nx a).
Proof.
  intros Hd [hh Hs] Hp.
  destruct (search_seconds _ _ _ Hs) as (fs & Hfs & _).
  destruct (find_bursts_ok a bl url (burst_indices st) (current_idx st) hh fs Hs Hfs Hp)
    as (added & Hfb & _).
  exists (List.concat added). split; [|exact Hfb].
  unfold one_day_body. rewrite Hd. cbn [bind]. rewrite Hfb. reflexivity.
Qed.

Lemma one_day_body_none download st url a :
  download url = Ok (Some a) ->
  one_day_body download None st url =
    Ok (mk_loop_state (arrays st ++ [a]) (burst_indices st) (current_idx st)).
Proof. intros Hd. unfold one_day_body. rewrite Hd. reflexivity. Qed.

(** The guard of line 195: a [None] from the download would be skipped. *)
Lemma one_day_body_skips_none download bl st url :
  download url = Ok None -> one_day_body download bl st url = Ok st.
Proof. intros Hd. unfold one_day_body. rewrite Hd. reflexivity. Qed.

Lemma one_day_body_raise download bl st url e :
  download url = Raise e -> one_day_body download bl st url = Raise e.
Proof. intros Hd. unfold one_day_body. rewrite Hd. reflexivity. Qed.

(** The loop with burst intervals, from any state. *)
Lemma loop_with_bursts download bl urls : forall arrs st,
  decoded download urls arrs ->
  Forall has_pattern_A urls -> Forall parses bl ->
  exists added,
    foldM (one_day_body download (Some bl)) urls st =
      Ok (mk_loop_state (arrays st ++ arrs) (burst_indices st ++ added)
                        (current_idx st + total_samples arrs)).
Proof.
  induction urls as [|url urls IH]; intros arrs st Hd Ha Hp.
  - inversion Hd; subst. exists []. cbn. rewrite !app_nil_r, Z.add_0_r.
    destruct st; auto.
  - inversion Hd as [|? a ? arrs' Hda Hd']; subst.
    inversion Ha as [|? ? Hau Ha']; subst.
    destruct (one_day_body_some download bl st url a Hda Hau Hp) as (add1 & Hb & _).
    destruct (IH arrs' (mk_loop_state (arrays st ++ [a]) (burst_indices st ++ add1)
                                      (current_idx st + nx a)) Hd' Ha' Hp)
      as (add2 & Hl).
    exists (add1 ++ add2)%list. cbn [foldM].
    rewrite Hb. cbn [bind]. rewrite Hl. cbn.
    rewrite <- !app_assoc, total_samples_cons.
    do 2 f_equal. lia.
Qed.

Lemma loop_without_bursts download urls : forall arrs st,
  decoded download urls arrs ->
  foldM (one_day_body download None) urls st =
    Ok (mk_loop_state (arrays st ++ arrs) (burst_indices st) (current_idx st)).
Proof.
  induction urls as [|url urls IH]; intros arrs st Hd.
  - inversion Hd; subst. cbn. rewrite app_nil_r. destruct st; reflexivity.
  - inversion Hd as [|? a ? arrs' Hda Hd']; subst.
    cbn [foldM]. rewrite (one_day_body_none _ _ _ _ Hda). cbn [bind].
    rewrite (IH arrs' (mk_loop_state (arrays st ++ [a]) (burst_indices st)
                                     (current_idx st)) Hd'). cbn. rewrite <- app_assoc. reflexivity.
Qed.

Lemma decoded_firstn download urls arrs k :
  decoded download urls arrs -> decoded download (firstn k urls) (firstn k arrs).
Proof.
  intros H. revert k. induction H; intros [|k]; cbn; constructor; auto.
  apply IHForall2.
Qed.

Lemma total_samples_firstn_le (arrs : list (ndarray elt)) j k :
  (j <= k)%nat -> total_samples (firstn j arrs) <= total_samples (firstn k arrs).
Proof.
  revert j k. induction arrs as [|a arrs IH]; intros j k Hjk.
  - rewrite !firstn_nil. lia.
  - destruct j as [|j]; [cbn [firstn]; apply total_samples_nonneg|].
    destruct k as [|k]; [lia|]. cbn [firstn]. rewrite !total_samples_cons.
    specialize (IH j k). lia.
Qed.

End OneDay.

Section OneDayClaims.
Context {elt : Type}.
Implicit Types (a arr : ndarray elt) (st : loop_state elt)
         (download : string -> result (option (ndarray elt))).

Lemma loop_arrays download bl urls : forall arrs st0 st,
  decoded download urls arrs ->
  foldM (one_day_body download bl) urls st0 = Ok st ->
  arrays st = (arrays st0 ++ arrs)%list.
Proof.
  induction urls as [|url urls IH]; intros arrs st0 st Hd Hl.
  - inversion Hd; subst. cbn in Hl. injection Hl as <-. rewrite app_nil_r. reflexivity.
  - inversion Hd as [|? a ? arrs' Hda Hd']; subst.
    cbn [foldM] in Hl. unfold one_day_body in Hl at 1. rewrite Hda in Hl. cbn [bind] in Hl.
    destruct (match bl with Some bl0 => _ | None => _ end) as [bc|]; [|discriminate Hl].
    cbn [bind] in Hl. rewrite (IH arrs' _ st Hd' Hl). cbn. rewrite <- app_assoc. reflexivity.
Qed.

Lemma concatenate_shape1 (arrs : list (ndarray elt)) raw :
  np_concatenate_axis1 arrs = Ok raw -> shape1 raw = list_sum (map shape1 arrs).
Proof.
  unfold np_concatenate_axis1. destruct arrs as [|a rest]; [discriminate|].
  destruct (forallb _ rest); [|discriminate]. intros [= <-]. reflexivity.
Qed.

Lemma one_day_finish_shape1 st big bi :
  one_day_finish st = Ok (big, bi) -> Z.of_nat (shape1 big) = total_samples (arrays st).
Proof.
  unfold one_day_finish. destruct (arrays st) as [|a rest] eqn:E; [discriminate|].
  destruct (np_concatenate_axis1 (a :: rest)) as [raw|] eqn:Ec; [|discriminate].
  cbn [bind]. intros [= <- _]. apply concatenate_shape1 in Ec.
  unfold total_samples. cbn [np_flipud shape1]. rewrite Ec. reflexivity.
Qed.

Lemma Forall_firstn' {A} (P : A -> Prop) (l : list A) k :
  Forall P l -> Forall P (firstn k l).
Proof.
  intros H. revert k. induction H; intros [|k]; cbn; constructor; auto.
Qed.

Implicit Types (rec : aligner_state elt (list burst_index * list Z)).

(** The recorded run is the run of [one_day]: with the notes dropped, each
    step and the whole loop give what the loop of [one_day] gives with burst
    intervals, a raised exception included. *)
Lemma recorded_body_is_one_day_body download bl rec url :
  match one_day_body_via (recorded_find_bursts bl) download rec url with
  | Ok rec' => one_day_body download (Some bl) (without_notes rec) url
               = Ok (without_notes rec')
  | Raise e => one_day_body download (Some bl) (without_notes rec) url = Raise e
  end.
Proof.
  unfold one_day_body_via, one_day_body, recorded_find_bursts.
  destruct (download url) as [[a|]|e]; cbn [bind]; [|reflexivity|reflexivity].
  cbn [without_notes burst_indices current_idx arrays].
  destruct (find_bursts a bl url (fst (accumulator rec)) (cursor rec)) as [r|e];
    cbn [bind]; reflexivity.
Qed.

Lemma recorded_run_is_one_day_run download bl urls : forall rec,
  match foldM (one_day_body_via (recorded_find_bursts bl) download) urls rec with
  | Ok rec' => foldM (one_day_body download (Some bl)) urls (without_notes rec)
               = Ok (without_notes rec')
  | Raise e => foldM (one_day_body download (Some bl)) urls (without_notes rec)
               = Raise e
  end.
Proof.
  induction urls as [|url urls IH]; intros rec; [reflexivity|].
  cbn [foldM]. pose proof (recorded_body_is_one_day_body download bl rec url) as H.
  destruct (one_day_body_via (recorded_find_bursts bl) download rec url) as [rec'|e];
    rewrite H; cbn [bind]; [apply IH|reflexivity].
Qed.

Lemma recorded_loop_is_one_day_loop download bl urls :
  match recorded_loop download bl urls with
  | Ok rec => one_day_loop download (Some bl) urls = Ok (without_notes rec)
  | Raise e => one_day_loop download (Some bl) urls = Raise e
  end.
Proof.
  exact (recorded_run_is_one_day_run download bl urls (mk_aligner_state [] ([], []) 0)).
Qed.

Lemma recorded_run_notes download bl urls : forall arrs rec,
  decoded download urls arrs ->
  Forall has_pattern_A urls -> Forall parses bl ->
  exists rec',
    foldM (one_day_body_via (recorded_find_bursts bl) download) urls rec = Ok rec' /\
    seen_arrays rec' = (seen_arrays rec ++ arrs)%list /\
    snd (accumulator rec') =
      (snd (accumulator rec) ++ prefix_sums (cursor rec) (map nx arrs))%list /\
    cursor rec' = cursor rec + total_samples arrs.
Proof.
  induction urls as [|url urls IH]; intros arrs rec Hd Ha Hp.
  - inversion Hd; subst. exists rec. cbn. rewrite !app_nil_r.
    unfold total_samples. cbn. repeat split; lia.
  - inversion Hd as [|? a ? arrs' Hda Hd']; subst.
    inversion Ha as [|? ? [hh Hs] Ha']; subst.
    destruct (search_seconds _ _ _ Hs) as (fs & Hfs & _).
    destruct (find_bursts_ok a bl url (fst (accumulator rec)) (cursor rec) hh fs
                Hs Hfs Hp) as (added & Hfb & _).
    cbn [foldM]. unfold one_day_body_via at 1, recorded_find_bursts at 1.
    rewrite Hda. cbn [bind]. rewrite Hfb. cbn [bind fst snd].
    destruct (IH arrs' (mk_aligner_state (seen_arrays rec ++ [a])
                 ((fst (accumulator rec) ++ List.concat added)%list,
                  (snd (accumulator rec) ++ [cursor rec])%list)
                 (cursor rec + Z.of_nat (shape1 a))) Hd' Ha' Hp)
      as (rec' & Hl & H1 & H2 & H3).
    exists rec'. split; [exact Hl|]. cbn in H1, H2, H3.
    rewrite H1, H2, H3, <- !app_assoc, total_samples_cons. cbn [map prefix_sums].
    unfold nx. repeat split; try reflexivity. lia.
Qed.

(** C4, as the code has it.  When burst intervals are supplied (every file
    name carrying a pattern-A time code, every interval well-formed), the
    [current_idx] that [find_bursts] is given for the k-th decoded file is
    the sum of the sample counts of the files before it (0 for the first),
    the cursor after file k is the sum of the sample counts of the files
    1..k, the cursor never decreases, and the assembled array is as long as
    the final cursor.  Without burst intervals [find_bursts] is not called
    and the cursor stays 0, while the assembled array is still as long as the
    sum of the sample counts. *)
Theorem cursor_given_to_find_bursts download bl urls arrs :
  decoded download urls arrs ->
  Forall has_pattern_A urls ->
  Forall parses bl ->
  (exists rec,
      recorded_loop download bl urls = Ok rec /\
      one_day_loop download (Some bl) urls = Ok (without_notes rec) /\
      snd (accumulator rec) = prefix_sums 0 (map nx arrs) /\
      cursor rec = total_samples arrs /\
      forall big bi, one_day_finish (without_notes rec) = Ok (big, bi) ->
                     Z.of_nat (shape1 big) = total_samples arrs) /\
  (forall k, exists st,
      one_day_loop download (Some bl) (firstn k urls) = Ok st /\
      arrays st = firstn k arrs /\
      current_idx st = total_samples (firstn k arrs)) /\
  (forall j k stj stk,
      (j <= k)%nat ->
      one_day_loop download (Some bl) (firstn j urls) = Ok stj ->
      one_day_loop download (Some bl) (firstn k urls) = Ok stk ->
      current_idx stj <= current_idx stk) /\
  (exists st,
      one_day_loop download None urls = Ok st /\
      arrays st = arrs /\ current_idx st = 0 /\
      forall big bi, one_day_finish st = Ok (big, bi) ->
                     Z.of_nat (shape1 big) = total_samples arrs).
Proof.
  intros Hd Ha Hp.
  assert (Hk : forall k, exists st,
      one_day_loop download (Some bl) (firstn k urls) = Ok st /\
      arrays st = firstn k arrs /\
      current_idx st = total_samples (firstn k arrs)).
  { intros k.
    destruct (loop_with_bursts download bl (firstn k urls) (firstn k arrs) initial_state)
      as (added & Hl);
      [apply decoded_firstn; exact Hd | apply Forall_firstn'; exact Ha | exact Hp |].
    eexists. split; [exact Hl|]. cbn. split; [reflexivity|lia]. }
  split; [|split; [exact Hk|split]].
  - destruct (recorded_run_notes download bl urls arrs
                (mk_aligner_state [] ([], []) 0) Hd Ha Hp) as (rec & Hl & H1 & H2 & H3).
    exists rec. split; [exact Hl|].
    pose proof (recorded_loop_is_one_day_loop download bl urls) as Hrun.
    unfold recorded_loop in *. rewrite Hl in Hrun.
    split; [exact Hrun|]. cbn in H1, H2, H3.
    split; [exact H2|]. split; [lia|].
    intros big bi Hf. apply one_day_finish_shape1 in Hf.
    cbn [without_notes arrays] in Hf. rewrite H1 in Hf. exact Hf.
  - intros j k stj stk Hjk Hj Hk'.
    destruct (Hk j) as (sj & Hsj & _ & Hcj). destruct (Hk k) as (sk & Hsk & _ & Hck).
    rewrite Hj in Hsj. rewrite Hk' in Hsk. injection Hsj as <-. injection Hsk as <-.
    rewrite Hcj, Hck. apply total_samples_firstn_le, Hjk.
  - eexists. split; [apply (loop_without_bursts download urls arrs initial_state Hd)|].
    cbn. split; [reflexivity|]. split; [reflexivity|].
    intros big bi Hf. apply one_day_finish_shape1 in Hf. exact Hf.
Qed.

(** C7, as the code has it. [find_bursts] only appends to the accumulator,
    computes every appended range from the cursor it was called with, and
    returns the cursor advanced by the sample count of the file.  [one_day]
    calls it with its current cursor and stores what it returns; it adds
    nothing to the cursor itself, so without burst intervals the array is
    appended and the cursor stays as it was. *)
Theorem find_bursts_returns_advanced_cursor download bl st url a :
  download url = Ok (Some a) ->
  has_pattern_A url ->
  Forall parses bl ->
  exists fstart per_burst,
    Forall2 (aligned fstart (nx a) (current_idx st)) bl per_burst /\
    find_bursts a bl url (burst_indices st) (current_idx st) =
      Ok ((burst_indices st ++ List.concat per_burst)%list, current_idx st + nx a) /\
    one_day_body download (Some bl) st url =
      Ok (mk_loop_state (arrays st ++ [a])
                        (burst_indices st ++ List.concat per_burst)
                        (current_idx st + nx a)) /\
    one_day_body download None st url =
      Ok (mk_loop_state (arrays st ++ [a]) (burst_indices st) (current_idx st)).
Proof.
  intros Hd [hh Hs] Hp.
  destruct (search_seconds _ _ _ Hs) as (fs & Hfs & _).
  destruct (find_bursts_ok a bl url (burst_indices st) (current_idx st) hh fs Hs Hfs Hp)
    as (per & Hfb & Hal).
  exists fs, per. split; [exact Hal|]. split; [exact Hfb|].
  split; [|apply one_day_body_none; exact Hd].
  unfold one_day_body. rewrite Hd. cbn [bind]. rewrite Hfb. reflexivity.
Qed.

(** ** [download_fits_from_gz] and the whole of [one_day] *)
Lemma download_never_none (w : world elt) url :
  download_fits_from_gz w url <> Ok None.
Proof.
  unfold download_fits_from_gz.
  destruct (requests_get w url) as [r|]; cbn [bind]; [|discriminate].
  destruct (raise_for_status r); cbn [bind]; [|discriminate].
  destruct (gzip_read w (content r)) as [raw|]; cbn [bind]; [|discriminate].
  destruct (fits_data w raw); cbn [bind]; discriminate.
Qed.

Lemma download_http_error (w : world elt) url r :
  requests_get w url = Ok r ->
  400 <= status_code r < 600 ->
  download_fits_from_gz w url = Raise HTTPError.
Proof.
  intros Hr Hs. unfold download_fits_from_gz, raise_for_status. rewrite Hr. cbn [bind].
  destruct (Z.leb_spec 400 (status_code r)), (Z.ltb_spec (status_code r) 600);
    try lia. reflexivity.
Qed.

Lemma circular_sort_nil offset url : circular_sort [] offset url = Raise IndexError.
Proof. reflexivity. Qed.

Lemma one_day_unfold (w : world elt) files url station time bl sorted :
  circular_sort (filter (PyStr.contains station) files) time url = Ok sorted ->
  one_day w files url station time bl =
  bind (one_day_loop (download_fits_from_gz w) bl sorted) one_day_finish.
Proof.
  intros Hc. unfold one_day.
  destruct (filter (PyStr.contains station) files) as [|f0 rest] eqn:E.
  - rewrite circular_sort_nil in Hc. discriminate.
  - rewrite Hc. reflexivity.
Qed.

(** C1, on the code. A download or decoding failure is an exception that
    nothing catches: when the file [f] fails after the files [pre] were
    processed, the loop and the whole run end with that exception, and the
    files [post] are never reached. *)
Theorem failed_download_aborts_run (w : world elt) files url station time bl
        pre f post st e :
  circular_sort (filter (PyStr.contains station) files) time url = Ok (pre ++ f :: post)%list ->
  one_day_loop (download_fits_from_gz w) bl pre = Ok st ->
  download_fits_from_gz w f = Raise e ->
  one_day_loop (download_fits_from_gz w) bl (pre ++ f :: post)%list = Raise e /\
  one_day w files url station time bl = Raise e.
Proof.
  intros Hc Hpre Hf.
  assert (Hl : one_day_loop (download_fits_from_gz w) bl (pre ++ f :: post)%list = Raise e).
  { unfold one_day_loop in *. rewrite foldM_app, Hpre. cbn [bind foldM].
    rewrite (one_day_body_raise _ _ _ _ _ Hf). reflexivity. }
  split; [exact Hl|].
  rewrite (one_day_unfold _ _ _ _ _ _ _ Hc), Hl. reflexivity.
Qed.

Lemma loop_raises_on_missing_pattern_A download bl f0 :
  (forall url, download url <> Ok None) ->
  Re.search Re.pattern_A f0 = None ->
  forall urls st, In f0 urls ->
  exists e, foldM (one_day_body download (Some bl)) urls st = Raise e.
Proof.
  intros Hnn Hs. induction urls as [|url urls IH]; intros st Hin; [destruct Hin|].
  cbn [foldM]. unfold one_day_body at 1.
  destruct (download url) as [[a|]|e] eqn:Hd; cbn [bind].
  - destruct (find_bursts a bl url (burst_indices st) (current_idx st)) as [bc|e] eqn:Hf;
      cbn [bind]; [|eauto].
    destruct Hin as [->|Hin]; [|apply IH, Hin].
    rewrite (find_bursts_no_pattern_A a bl f0 _ _ Hs) in Hf. discriminate.
  - exfalso. apply (Hnn url Hd).
  - eauto.
Qed.

(** C10. When the first station file has no pattern-A match and a pattern-B
    match, sequencing chooses pattern B and keeps that file, [find_bursts]
    raises [AttributeError] on it whatever the array, and [one_day] with
    burst intervals ends with an exception. *)
Theorem pattern_B_day_cannot_complete (w : world elt) files url station time bl f0 rest :
  filter (PyStr.contains station) files = f0 :: rest ->
  Re.search Re.pattern_A f0 = None ->
  matches Re.pattern_B f0 = true ->
  choose_pattern (f0 :: rest) url = Ok Re.pattern_B /\
  (forall arr results cursor,
      find_bursts arr bl f0 results cursor = Raise AttributeError) /\
  (forall sorted, circular_sort (f0 :: rest) time url = Ok sorted -> In f0 sorted) /\
  exists e, one_day w files url station time (Some bl) = Raise e.
Proof.
  intros Hf Ha Hb.
  assert (Hc : choose_pattern (f0 :: rest) url = Ok Re.pattern_B).
  { rewrite choose_pattern_cases. unfold matches at 1. rewrite Ha, Hb. reflexivity. }
  assert (Hin : forall sorted,
             circular_sort (f0 :: rest) time url = Ok sorted -> In f0 sorted).
  { intros sorted Hs. pose proof (circular_sort_members _ _ _ _ _ Hc Hs) as Hp.
    eapply Permutation_in; [symmetry; exact Hp|].
    apply filter_In. split; [left; reflexivity|exact Hb]. }
  split; [exact Hc|]. split; [|split; [exact Hin|]].
  - intros arr results cursor. apply find_bursts_no_pattern_A, Ha.
  - destruct (circular_sort (f0 :: rest) time url) as [sorted|e] eqn:Hs.
    + destruct (loop_raises_on_missing_pattern_A (download_fits_from_gz w) bl f0
                  (download_never_none w) Ha sorted initial_state (Hin sorted eq_refl))
        as (e & He).
      exists e. rewrite <- Hf in Hs. rewrite (one_day_unfold _ _ _ _ _ _ _ Hs).
      unfold one_day_loop. rewrite He. reflexivity.
    + exists e. unfold one_day. rewrite Hf, Hs. reflexivity.
Qed.

End OneDayClaims.

(** ** Concatenation and flip *)

Section Concat.
Context {elt : Type}.
Implicit Types (a : ndarray elt) (arrs : list (ndarray elt)).

Lemma row_length a i :
  wf_ndarray a -> (i < shape0 a)%nat -> List.length (row i a) = shape1 a.
Proof.
  intros [Hl Hr] Hi. unfold row. rewrite Forall_forall in Hr.
  apply Hr, nth_In. lia.
Qed.

Lemma concat_rows_length arrs ny i :
  Forall wf_ndarray arrs -> Forall (fun a => shape0 a = ny) arrs -> (i < ny)%nat ->
  List.length (List.concat (map (row i) arrs)) = list_sum (map shape1 arrs).
Proof.
  intros Hw Hs Hi. induction arrs as [|a arrs IH]; [reflexivity|].
  inversion Hw; inversion Hs; subst. cbn [map List.concat list_sum].
  rewrite length_app, IH, row_length by (assumption || lia). reflexivity.
Qed.

Lemma concatenate_same_rows arrs ny :
  arrs <> [] -> Forall (fun a => shape0 a = ny) arrs ->
  np_concatenate_axis1 arrs =
    Ok (mk_ndarray ny (list_sum (map shape1 arrs))
          (map (fun i => List.concat (map (row i) arrs)) (seq 0 ny))).
Proof.
  intros Hne Hs. destruct arrs as [|a rest]; [contradiction|].
  inversion Hs as [|? ? Ha Hrest]; subst. unfold np_concatenate_axis1.
  replace (forallb (fun b => Nat.eqb (shape0 b) (shape0 a)) rest) with true; [reflexivity|].
  symmetry. apply forallb_forall. intros b Hb. rewrite Forall_forall in Hrest.
  apply Nat.eqb_eq. auto.
Qed.

Lemma row_map_seq (f : nat -> list elt) ny i :
  (i < ny)%nat -> nth i (map f (seq 0 ny)) [] = f i.
Proof.
  intros Hi. rewrite (nth_indep _ [] (f 0%nat)) by (rewrite length_map, length_seq; exact Hi).
  rewrite map_nth, seq_nth by exact Hi. reflexivity.
Qed.

(** C9. For a non-empty sequence of decoded arrays with the same number of
    frequency rows, [one_day] returns the arrays joined along the time axis
    in processing order and then reversed along the frequency axis: row [i]
    of the join is the rows [i] of the arrays one after the other, and row
    [i] of the result is row [ny - 1 - i] of the join, so row 0 of the
    result is the last row of the join. *)
Theorem one_day_concatenates_then_flips
        (download : string -> result (option (ndarray elt))) urls arrs ny :
  decoded download urls arrs ->
  arrs <> [] ->
  Forall wf_ndarray arrs ->
  Forall (fun a => shape0 a = ny) arrs ->
  exists raw,
    np_concatenate_axis1 arrs = Ok raw /\
    bind (one_day_loop download None urls) one_day_finish = Ok (np_flipud raw, []) /\
    (forall bl st, one_day_loop download (Some bl) urls = Ok st ->
                   one_day_finish st = Ok (np_flipud raw, burst_indices st)) /\
    wf_ndarray raw /\ wf_ndarray (np_flipud raw) /\
    shape0 raw = ny /\ shape1 raw = list_sum (map shape1 arrs) /\
    (forall i, (i < ny)%nat -> row i raw = List.concat (map (row i) arrs)) /\
    (forall i, (i < ny)%nat -> row i (np_flipud raw) = row (ny - 1 - i) raw).
Proof.
  intros Hd Hne Hw Hs.
  pose proof (concatenate_same_rows arrs ny Hne Hs) as Hc.
  eexists. split; [exact Hc|].
  assert (Hfin : forall st, arrays st = arrs ->
            one_day_finish st = Ok (np_flipud (mk_ndarray ny (list_sum (map shape1 arrs))
               (map (fun i => List.concat (map (row i) arrs)) (seq 0 ny))), burst_indices st)).
  { intros st Hst. unfold one_day_finish. rewrite Hst, Hc.
    destruct arrs; [contradiction|reflexivity]. }
  assert (Hwf : wf_ndarray (mk_ndarray ny (list_sum (map shape1 arrs))
               (map (fun i => List.concat (map (row i) arrs)) (seq 0 ny)))).
  { split; cbn [data shape0 shape1].
    - rewrite length_map, length_seq. reflexivity.
    - apply Forall_forall. intros r Hr. apply in_map_iff in Hr as (i & <- & Hi).
      apply in_seq in Hi. apply (concat_rows_length arrs ny i Hw Hs). lia. }
  split; [|split; [|split; [exact Hwf|split; [|split; [reflexivity|split; [reflexivity|split]]]]]].
  - unfold one_day_loop. rewrite (loop_without_bursts download urls arrs initial_state Hd).
    cbn [bind]. rewrite Hfin; reflexivity.
  - intros bl st Hl. apply Hfin.
    rewrite (loop_arrays download (Some bl) urls arrs initial_state st Hd Hl). reflexivity.
  - destruct Hwf as [Hl Hr]. split; cbn [np_flipud data shape0 shape1] in *.
    + rewrite length_rev. exact Hl.
    + apply Forall_rev. exact Hr.
  - intros i Hi. unfold row at 1. cbn [data]. apply row_map_seq, Hi.
  - intros i Hi. unfold row. cbn [np_flipud data].
    rewrite rev_nth by (rewrite length_map, length_seq; exact Hi).
    rewrite length_map, length_seq. f_equal. lia.
Qed.

End Concat.

(** ** [extract_bursts] *)

Lemma extract_bursts_body_cases station date bursts line :
  extract_bursts_body station date bursts line =
  if skipped_line line then Ok bursts
  else if (List.length (fields line) <? 4)%nat then Ok bursts
  else if (List.length (fields line) =? 4)%nat then
         if String.eqb (field 0 line) date && lists_station station (field 3 line)
         then Ok (bursts ++ [field 1 line])%list
         else Ok bursts
  else Raise ValueError.
Proof.
  unfold extract_bursts_body, skipped_line, field, fields, lists_station.
  destruct (_ || _); [reflexivity|].
  destruct (PyStr.split tab line) as [|f0 [|f1 [|f2 [|f3 [|f4 l]]]]]; try reflexivity.
  cbn [List.length Nat.ltb Nat.leb Nat.eqb nth].
  destruct (String.eqb f0 date); reflexivity.
Qed.

Lemma extract_bursts_body_long station date bursts line :
  skipped_line line = false ->
  (4 < List.length (fields line))%nat ->
  extract_bursts_body station date bursts line = Raise ValueError.
Proof.
  intros Hs Hl. rewrite extract_bursts_body_cases, Hs.
  destruct (Nat.ltb_spec (List.length (fields line)) 4); [lia|].
  destruct (Nat.eqb_spec (List.length (fields line)) 4); [lia|reflexivity].
Qed.

(** C8, on the code. A row that is not skipped and has more than four
    tab-separated fields makes [extract_bursts] end with [ValueError]: the
    row is unpacked into exactly four names. *)
Theorem extract_bursts_aborts_on_long_row text station year month day pre line post acc :
  splitlines text = (pre ++ line :: post)%list ->
  foldM (extract_bursts_body station (date_of year month day)) pre [] = Ok acc ->
  skipped_line line = false ->
  (4 < List.length (fields line))%nat ->
  extract_bursts text station year month day = Raise ValueError.
Proof.
  intros Ht Hpre Hs Hl. unfold extract_bursts. rewrite Ht.
  fold (date_of year month day). rewrite foldM_app, Hpre. cbn [bind foldM].
  rewrite (extract_bursts_body_long _ _ _ _ Hs Hl). reflexivity.
Qed.



(** ** The properties on sample data *)

(** C1 at a server that answers 404 for the second of three files. *)
Lemma failed_download_aborts_run_404 :
  one_day_loop (download_fits_from_gz (world_404 url_0915)) None
               ([url_0900] ++ url_0915 :: [url_0930])%list = Raise HTTPError /\
  one_day (world_404 url_0915) [url_0900; url_0915; url_0930] day_url "S_" "000000" None
    = Raise HTTPError.
Proof.
  apply (failed_download_aborts_run (world_404 url_0915)
           [url_0900; url_0915; url_0930] day_url "S_" "000000" None
           [url_0900] url_0915 [url_0930]
           (mk_loop_state [small_1] [] 0) HTTPError); reflexivity.
Defined.

(** C3 at a file of 900 samples that starts at 09:00:00, with the cursor
    at 0. *)
Lemma find_bursts_aligns_example :
  let arr := samples 900 in
  let bl := ["09:00:30-09:01:00"; "08:00-08:30"; "08:59-09:00"] in
  exists added,
    find_bursts arr bl url_0900 [] 0 =
      Ok (([] ++ List.concat added)%list, 0 + Z.of_nat (shape1 arr)) /\
    Forall2 (aligned 32400 (Z.of_nat (shape1 arr)) 0) bl added /\
    forall b entries bstart bend,
      In (b, entries) (combine bl added) ->
      parse_burst b = Ok (bstart, bend) ->
      (entries = [aligned_range b bstart bend 32400 (Z.of_nat (shape1 arr)) 0]
       <-> overlaps bstart bend 32400 (Z.of_nat (shape1 arr))) /\
      (entries = [] <-> ~ overlaps bstart bend 32400 (Z.of_nat (shape1 arr))).
Proof.
  apply (find_bursts_aligns (samples 900) _ url_0900 [] 0 "090000" 32400);
    [reflexivity | reflexivity |].
  repeat constructor; eexists; vm_compute; reflexivity.
Defined.

(** The spec's example burst, 30 s to 60 s into the file, lands on local
    samples 120 and 240; the ranges stored are the widened ones, and the
    first begins before sample 0. *)
Example find_bursts_unclamped :
  find_bursts (samples 900) ["09:00:30-09:01:00"; "08:00-08:30"; "08:59-09:00"]
              url_0900 [] 0 =
  Ok ([mk_burst_index "09:00:30-09:01:00" (-120) 480;
       mk_burst_index "08:59-09:00" (-240) 240], 900).
Proof. vm_compute. reflexivity. Qed.

(** Sample counts 900, 850, 900: [find_bursts] is given the cursors 0, 900
    and 1750, and the day is 2650 samples long. *)
Lemma cursor_given_to_find_bursts_900_850_900 :
  let urls := [url_0900; url_0915; url_0930] in
  let arrs := [samples 900; samples 850; samples 900] in
  let bl := ["09:00:30-09:01:00"] in
  (prefix_sums 0 (map nx arrs) = [0; 900; 1750] /\ total_samples arrs = 2650) /\
  (exists rec,
      recorded_loop download_3 bl urls = Ok rec /\
      one_day_loop download_3 (Some bl) urls = Ok (without_notes rec) /\
      snd (accumulator rec) = prefix_sums 0 (map nx arrs) /\
      cursor rec = total_samples arrs /\
      forall big bi, one_day_finish (without_notes rec) = Ok (big, bi) ->
                     Z.of_nat (shape1 big) = total_samples arrs) /\
  (forall k, exists st,
      one_day_loop download_3 (Some bl) (firstn k urls) = Ok st /\
      arrays st = firstn k arrs /\
      current_idx st = total_samples (firstn k arrs)) /\
  (forall j k stj stk,
      (j <= k)%nat ->
      one_day_loop download_3 (Some bl) (firstn j urls) = Ok stj ->
      one_day_loop download_3 (Some bl) (firstn k urls) = Ok stk ->
      current_idx stj <= current_idx stk) /\
  (exists st,
      one_day_loop download_3 None urls = Ok st /\
      arrays st = arrs /\ current_idx st = 0 /\
      forall big bi, one_day_finish st = Ok (big, bi) ->
                     Z.of_nat (shape1 big) = total_samples arrs).
Proof.
  split; [vm_compute; split; reflexivity|].
  apply cursor_given_to_find_bursts.
  - repeat constructor.
  - repeat constructor; eexists; vm_compute; reflexivity.
  - repeat constructor. eexists; vm_compute; reflexivity.
Defined.

Example recorded_cursors_900_850_900 :
  exists rec big bi,
    recorded_loop download_3 ["09:00:30-09:01:00"] [url_0900; url_0915; url_0930]
      = Ok rec /\
    snd (accumulator rec) = [0; 900; 1750] /\ cursor rec = 2650 /\
    one_day_finish (without_notes rec) = Ok (big, bi) /\ shape1 big = 2650%nat.
Proof. do 3 eexists. vm_compute. repeat split. Qed.

(** C4, as stated, fails: without burst intervals the three files of 900,
    850 and 900 samples are all decoded and kept, 2650 samples in all, and
    the cursor after the last of them is 0. *)
Lemma cursor_stays_zero_without_bursts :
  one_day_loop download_3 None [url_0900; url_0915; url_0930] =
    Ok (mk_loop_state [samples 900; samples 850; samples 900] [] 0) /\
  total_samples [samples 900; samples 850; samples 900] = 2650.
Proof. vm_compute. split; reflexivity. Qed.

(** C7, as stated, fails: the cursor [find_bursts] hands back is advanced by
    the 900 samples of the file, and the loop body without burst intervals
    appends the array and leaves the cursor at 0. *)
Lemma find_bursts_advances_cursor :
  find_bursts (samples 900) [] url_0900 [] 0 = Ok ([], 900) /\
  one_day_body download_3 (Some []) initial_state url_0900 =
    Ok (mk_loop_state [samples 900] [] 900) /\
  one_day_body download_3 None initial_state url_0900 =
    Ok (mk_loop_state [samples 900] [] 0).
Proof. vm_compute. repeat split. Qed.

(** C7 at the second of two small files. *)
Lemma find_bursts_returns_advanced_cursor_example :
  let st := mk_loop_state [small_1] [] 3 in
  let bl := ["09:15-09:16"] in
  exists fstart per_burst,
    Forall2 (aligned fstart (nx small_2) (current_idx st)) bl per_burst /\
    find_bursts small_2 bl url_0915 (burst_indices st) (current_idx st) =
      Ok ((burst_indices st ++ List.concat per_burst)%list, current_idx st + nx small_2) /\
    one_day_body download_small (Some bl) st url_0915 =
      Ok (mk_loop_state (arrays st ++ [small_2])
                        (burst_indices st ++ List.concat per_burst)
                        (current_idx st + nx small_2)) /\
    one_day_body download_small None st url_0915 =
      Ok (mk_loop_state (arrays st ++ [small_2]) (burst_indices st) (current_idx st)).
Proof.
  apply find_bursts_returns_advanced_cursor.
  - reflexivity.
  - eexists; vm_compute; reflexivity.
  - repeat constructor. eexists; vm_compute; reflexivity.
Defined.

(** C8 at a table whose third line has five fields. *)
Lemma extract_bursts_aborts_on_five_fields :
  extract_bursts table "ALASKA" 2025 1 3 = Raise ValueError.
Proof.
  apply (extract_bursts_aborts_on_long_row table "ALASKA" 2025 1 3
           ["# Date Time Type Stations"; row_4] row_5 [] ["03:00-03:01"]).
  - vm_compute. reflexivity.
  - vm_compute. reflexivity.
  - vm_compute. reflexivity.
  - vm_compute. lia.
Defined.


Example extract_bursts_four_fields :
  extract_bursts ("# Date Time Type Stations" ++ newline_s ++ row_4 ++ newline_s)
                 "ALASKA" 2025 1 3 = Ok ["03:00-03:01"].
Proof. vm_compute. reflexivity. Qed.

(** C9 at two arrays of two rows. *)
Lemma one_day_concatenates_then_flips_example :
  let urls := [url_0900; url_0915] in
  let arrs := [small_1; small_2] in
  exists raw,
    np_concatenate_axis1 arrs = Ok raw /\
    bind (one_day_loop download_small None urls) one_day_finish = Ok (np_flipud raw, []) /\
    (forall bl st, one_day_loop download_small (Some bl) urls = Ok st ->
                   one_day_finish st = Ok (np_flipud raw, burst_indices st)) /\
    wf_ndarray raw /\ wf_ndarray (np_flipud raw) /\
    shape0 raw = 2%nat /\ shape1 raw = list_sum (map shape1 arrs) /\
    (forall i, (i < 2)%nat -> row i raw = List.concat (map (row i) arrs)) /\
    (forall i, (i < 2)%nat -> row i (np_flipud raw) = row (2 - 1 - i) raw).
Proof.
  apply (one_day_concatenates_then_flips download_small [url_0900; url_0915]
           [small_1; small_2] 2%nat).
  - repeat constructor.
  - discriminate.
  - repeat constructor.
  - repeat constructor.
Defined.

Example one_day_small_spectrogram :
  one_day (world_404 "") [url_0900; url_0915] day_url "S_" "000000" None =
  Ok (mk_ndarray 2 6 [[4; 5; 6; 4; 5; 6]; [1; 2; 3; 1; 2; 3]], []).
Proof. vm_compute. reflexivity. Qed.

Example one_day_loop_small_spectrogram :
  bind (one_day_loop download_small None [url_0900; url_0915]) one_day_finish =
  Ok (mk_ndarray 2 5 [[4; 5; 6; 9; 10]; [1; 2; 3; 7; 8]], []).
Proof. vm_compute. reflexivity. Qed.

(** C10 at a day with one pattern-B file. *)
Lemma pattern_B_day_cannot_complete_example :
  choose_pattern (url_B :: []) day_url = Ok Re.pattern_B /\
  (forall arr results cursor,
      find_bursts (elt:=Z) arr ["12:00-12:01"] url_B results cursor = Raise AttributeError) /\
  (forall sorted, circular_sort (url_B :: []) "000000" day_url = Ok sorted -> In url_B sorted) /\
  exists e, one_day (world_404 "") [url_B] day_url "S_" "000000" (Some ["12:00-12:01"])
            = Raise e.
Proof.
  apply (pattern_B_day_cannot_complete (world_404 "") [url_B] day_url "S_" "000000"
           ["12:00-12:01"] url_B []); reflexivity.
Defined.

Example pattern_B_day_attribute_error :
  circular_sort [url_B] "000000" day_url = Ok [url_B] /\
  one_day (world_404 "") [url_B] day_url "S_" "000000" (Some ["12:00-12:01"])
    = Raise AttributeError /\
  exists big, one_day (world_404 "") [url_B] day_url "S_" "000000" None = Ok (big, []).
Proof. vm_compute. repeat split. eexists. reflexivity. Qed.

(** * Further properties *)

Lemma find_app' {A : Type} (p : A -> bool) (l l' : list A) :
  find p (l ++ l') = match find p l with Some x => Some x | None => find p l' end.
Proof.
  induction l as [|x l IH]; [reflexivity|]. cbn. destruct (p x); auto.
Qed.

Lemma save_flag_not_time : time_arg Cli.save_flag = false.
Proof. reflexivity. Qed.

Lemma parse_args_body_cases st arg :
  Cli.parse_args_body st arg =
  if String.eqb arg Cli.save_flag then Ok (fst st, true)
  else if time_arg arg then Ok (Some arg, snd st)
  else Raise (SystemExit (unknown_argument_text arg) 1).
Proof.
  destruct st as [t s]. reflexivity.
Qed.

Lemma parse_args_loop_ok rest : forall st,
  find (fun a => negb (optional_arg a)) rest = None ->
  foldM Cli.parse_args_body rest st =
    Ok (match last_such time_arg rest with Some t => Some t | None => fst st end,
        snd st || existsb (String.eqb Cli.save_flag) rest).
Proof.
  unfold last_such.
  induction rest as [|arg rest IH]; intros [t s] Hall.
  - cbn. rewrite orb_false_r. reflexivity.
  - cbn [find] in Hall.
    destruct (optional_arg arg) eqn:Harg; cbn [negb] in Hall; [|discriminate].
    cbn [foldM]. rewrite parse_args_body_cases.
    cbn [rev existsb fst snd]. rewrite find_app'.
    destruct (String.eqb arg Cli.save_flag) eqn:E.
    + apply String.eqb_eq in E. subst arg. cbn [bind]. rewrite (IH _ Hall).
      cbn [fst snd find]. rewrite save_flag_not_time, String.eqb_refl.
      cbn [orb]. rewrite orb_true_r.
      destruct (find time_arg (rev rest)); reflexivity.
    + unfold optional_arg in Harg. rewrite E in Harg. cbn [orb] in Harg.
      rewrite Harg. cbn [bind]. rewrite (IH _ Hall). cbn [fst snd find].
      rewrite Harg. rewrite String.eqb_sym, E. cbn [orb].
      destruct (find time_arg (rev rest)); reflexivity.
Qed.

Lemma parse_args_loop_exit rest arg : forall st,
  find (fun a => negb (optional_arg a)) rest = Some arg ->
  foldM Cli.parse_args_body rest st = Raise (SystemExit (unknown_argument_text arg) 1).
Proof.
  induction rest as [|a rest IH]; intros st Hf; [discriminate|].
  cbn [find] in Hf. cbn [foldM]. rewrite parse_args_body_cases.
  unfold optional_arg in Hf at 1.
  destruct (String.eqb a Cli.save_flag) eqn:E; cbn [orb negb bind] in *.
  - apply IH, Hf.
  - destruct (time_arg a); cbn [negb bind] in *.
    + apply IH, Hf.
    + injection Hf as <-. reflexivity.
Qed.

Lemma parse_args_cases argv :
  match argv with
  | _ :: _ :: _ :: _ :: _ :: rest =>
      match find (fun a => negb (optional_arg a)) rest with
      | Some arg =>
          Cli.parse_args argv = Raise (SystemExit (unknown_argument_text arg) 1)
      | None =>
          Cli.parse_args argv =
            Ok (nth 1 argv "", nth 4 argv "", nth 2 argv "", nth 3 argv "",
                match last_such time_arg rest with
                | Some t => t
                | None => "000000"
                end,
                existsb (String.eqb Cli.save_flag) rest)
      end
  | _ => Cli.parse_args argv = Raise (SystemExit Cli.usage_text 1)
  end.
Proof.
  destruct argv as [|a0 [|a1 [|a2 [|a3 [|a4 rest]]]]]; try reflexivity.
  unfold Cli.parse_args. cbn [nth].
  destruct (find (fun a => negb (optional_arg a)) rest) as [arg|] eqn:E.
  - rewrite (parse_args_loop_exit rest arg (None, false) E). reflexivity.
  - rewrite (parse_args_loop_ok rest (None, false) E). cbn [bind fst snd orb].
    destruct (last_such time_arg rest); reflexivity.
Qed.

Lemma find_negb_none {A : Type} (p : A -> bool) (l : list A) :
  find (fun a => negb (p a)) l = None <-> forall a, In a l -> p a = true.
Proof.
  induction l as [|x l IH]; cbn.
  - split; [intros _ a []|reflexivity].
  - destruct (p x) eqn:E; cbn.
    + rewrite IH. split; [intros H a [<-|Ha]; auto|intros H a Ha; apply H; auto].
    + split; [discriminate|]. intros H. rewrite (H x) in E by auto. discriminate.
Qed.

(** X2. [parse_args] ends the program with status 1 in two cases and fails
    in no other way: with fewer than four arguments after the script name it
    has printed the usage text; else, at the first optional argument that is
    neither the switch nor a string of six characters that passes [isdigit],
    it has printed a line that names this argument and then the usage text.
    Otherwise it returns. *)
Theorem parse_args_exit_text argv :
  ((List.length argv < 5)%nat ->
   Cli.parse_args argv = Raise (SystemExit Cli.usage_text 1)) /\
  (forall arg,
      (5 <= List.length argv)%nat ->
      find (fun a => negb (optional_arg a)) (skipn 5 argv) = Some arg ->
      Cli.parse_args argv = Raise (SystemExit (unknown_argument_text arg) 1)) /\
  ((5 <= List.length argv)%nat ->
   find (fun a => negb (optional_arg a)) (skipn 5 argv) = None ->
   exists r, Cli.parse_args argv = Ok r) /\
  ((exists e, Cli.parse_args argv = Raise e) <->
   (List.length argv < 5)%nat \/
   exists arg, In arg (skipn 5 argv) /\ optional_arg arg = false) /\
  (forall e, Cli.parse_args argv = Raise e ->
             e = SystemExit Cli.usage_text 1 \/
             exists arg, In arg (skipn 5 argv) /\ optional_arg arg = false /\
                         e = SystemExit (unknown_argument_text arg) 1).
Proof.
  pose proof (parse_args_cases argv) as H.
  destruct argv as [|a0 [|a1 [|a2 [|a3 [|a4 rest]]]]];
    try (cbn [List.length skipn] in *; rewrite H;
         split; [reflexivity|];
         split; [intros arg Hl; lia|];
         split; [intros Hl; lia|];
         split; [split; [intros _; left; lia|intros _; eauto]|];
         intros e [= <-]; left; reflexivity).
  cbn [List.length skipn] in *.
  destruct (find (fun a => negb (optional_arg a)) rest) as [arg|] eqn:E.
  - rewrite H.
    assert (Harg : In arg rest /\ optional_arg arg = false).
    { apply find_some in E as [Hin Hn]. split; [exact Hin|].
      apply negb_true_iff, Hn. }
    split; [intros Hl; lia|].
    split; [intros arg' _ [= <-]; reflexivity|].
    split; [discriminate|].
    split; [split; [intros _; right; exists arg; exact Harg|intros _; eauto]|].
    intros e [= <-]. right. exists arg. destruct Harg. auto.
  - rewrite H.
    split; [intros Hl; lia|].
    split; [discriminate|].
    split; [intros _ _; eauto|].
    split; [|discriminate].
    split; [intros (e & He); discriminate He|].
    intros [Hl|(arg & Hin & Ho)]; [lia|].
    rewrite (proj1 (find_negb_none optional_arg rest) E arg Hin) in Ho. discriminate.
Qed.

(** The text printed for an unknown argument, line by line. *)
Example parse_args_unknown_argument :
  exists printed,
    Cli.parse_args ["one_day.py"; "ALASKA-COHOE"; "05"; "13"; "2025"; "093000";
                    "--verbose"; "12"] = Raise (SystemExit printed 1) /\
    PyStr.split "010"%char printed =
      [ "Unknown argument: --verbose";
        "Usage: python one_day.py <station> <month> <day> <year> [start_time] [--save_burst_labels]";
        "";
        "Arguments:";
        "  station              Name of the observatory station (e.g. GERMANY-DLR)";
        "  year                 Four-digit year (e.g. 2025)";
        "  month                Two-digit month (01)";
        "  day                  Two-digit day (31)";
        "  start_time (optional) Time of the first recording as seen in the filename (e.g. 093000 for 09:30:00)";
        "  --save_burst_labels  Optional switch; if present, creates a npy file with the indexes when bursts start/end" ].
Proof. eexists. split; vm_compute; reflexivity. Qed.




Lemma six_digits_time_arg s : six_digits s = true -> time_arg s = true.
Proof.
  intros H. destruct (six_digits_inv s H) as (d1&d2&d3&d4&d5&d6&->&H1&H2&H3&H4&H5&H6).
  unfold time_arg, Cli.isdigit, Cli.isdigit_char. cbn [PyStr.all_chars].
  rewrite H1, H2, H3, H4, H5, H6. reflexivity.
Qed.





(** [isdigit] holds of the superscript two, [int] does not read it: six of
    them are taken as the start time, and the conversion raises. *)
Example parse_args_superscript_start_time :
  Cli.parse_args ["one_day.py"; "ALASKA-COHOE"; "05"; "13"; "2025"; superscript_twos] =
    Ok ("ALASKA-COHOE", "2025", "05", "13", superscript_twos, false) /\
  time_arg superscript_twos = true /\ six_digits superscript_twos = false /\
  ascii_only superscript_twos = false /\
  hhmmss_to_seconds superscript_twos = Raise ValueError /\
  code_seconds "120000" = 43200.
Proof. vm_compute. repeat split. Qed.

Lemma two_digits_inv s :
  two_digits s = true ->
  exists a b, s = String a (String b "") /\
              PyStr.is_digit a = true /\ PyStr.is_digit b = true.
Proof.
  unfold two_digits. intros H. apply andb_true_iff in H as [Hl Hd].
  destruct s as [|a [|b [|c s]]]; try discriminate Hl.
  simpl in Hd. repeat (apply andb_true_iff in Hd as [? Hd]). eauto.
Qed.

Lemma digit_not_colon c : PyStr.is_digit c = true -> Ascii.eqb c ":" = false.
Proof.
  destruct c as [[] [] [] [] [] [] [] []]; simpl; intros H;
    try discriminate H; reflexivity.
Qed.

Lemma split_cons_other sep c r :
  Ascii.eqb c sep = false ->
  PyStr.split sep (String c r) =
  match PyStr.split sep r with
  | h :: t => String c h :: t
  | [] => [String c ""]
  end.
Proof. intros H. cbn [PyStr.split]. rewrite H. reflexivity. Qed.

Lemma split_cons_sep sep r :
  PyStr.split sep (String sep r) = "" :: PyStr.split sep r.
Proof. cbn [PyStr.split]. rewrite Ascii.eqb_refl. reflexivity. Qed.

Lemma split_two_digits a b r :
  PyStr.is_digit a = true -> PyStr.is_digit b = true ->
  PyStr.split ":" (String a (String b r)) =
  match PyStr.split ":" r with
  | h :: t => String a (String b h) :: t
  | [] => [String a (String b "")]
  end.
Proof.
  intros Ha Hb.
  rewrite (split_cons_other _ a) by (apply digit_not_colon, Ha).
  rewrite (split_cons_other _ b) by (apply digit_not_colon, Hb).
  destruct (PyStr.split ":" r); reflexivity.
Qed.

Lemma split_two_digits_end a b :
  PyStr.is_digit a = true -> PyStr.is_digit b = true ->
  PyStr.split ":" (String a (String b "")) = [String a (String b "")].
Proof. intros Ha Hb. rewrite split_two_digits by assumption. reflexivity. Qed.

Lemma split_two_digits_colon a b r :
  PyStr.is_digit a = true -> PyStr.is_digit b = true ->
  PyStr.split ":" (String a (String b (String ":" r))) =
  String a (String b "") :: PyStr.split ":" r.
Proof.
  intros Ha Hb. rewrite split_two_digits by assumption.
  rewrite split_cons_sep. reflexivity.
Qed.

(** X4. Burst endpoints and file time codes are read on the same scale: for
    two-digit fields, [parse_time_str] of HH:MM:SS and [hhmmss_to_seconds]
    of HHMMSS give the same number of seconds, and HH:MM is read as
    HHMM00. *)
Theorem parse_time_str_same_base hh mm ss :
  two_digits hh = true -> two_digits mm = true -> two_digits ss = true ->
  exists h m s,
    PyStr.int hh = Ok h /\ PyStr.int mm = Ok m /\ PyStr.int ss = Ok s /\
    parse_time_str (hh ++ ":" ++ mm ++ ":" ++ ss) = Ok (h * 3600 + m * 60 + s) /\
    hhmmss_to_seconds (hh ++ mm ++ ss) = Ok (h * 3600 + m * 60 + s) /\
    parse_time_str (hh ++ ":" ++ mm) = hhmmss_to_seconds (hh ++ mm ++ "00").
Proof.
  intros Hh Hm Hs.
  destruct (two_digits_inv _ Hh) as (h1 & h2 & -> & Hh1 & Hh2).
  destruct (two_digits_inv _ Hm) as (m1 & m2 & -> & Hm1 & Hm2).
  destruct (two_digits_inv _ Hs) as (s1 & s2 & -> & Hs1 & Hs2).
  do 3 eexists.
  split; [apply int_two_digits; assumption|].
  split; [apply int_two_digits; assumption|].
  split; [apply int_two_digits; assumption|].
  unfold parse_time_str, hhmmss_to_seconds, PyStr.slice.
  cbn [String.append String.substring Nat.sub].
  rewrite !split_two_digits_colon, !split_two_digits_end by assumption.
  cbn [mapM].
  rewrite !int_two_digits by (assumption || reflexivity).
  cbn [bind]. change (PyStr.digit_val "0") with 0.
  repeat split; f_equal; lia.
Qed.

Lemma parse_time_str_same_base_example :
  exists h m s,
    PyStr.int "09" = Ok h /\ PyStr.int "30" = Ok m /\ PyStr.int "15" = Ok s /\
    parse_time_str ("09" ++ ":" ++ "30" ++ ":" ++ "15") = Ok (h * 3600 + m * 60 + s) /\
    hhmmss_to_seconds ("09" ++ "30" ++ "15") = Ok (h * 3600 + m * 60 + s) /\
    parse_time_str ("09" ++ ":" ++ "30") = hhmmss_to_seconds ("09" ++ "30" ++ "00").
Proof. apply parse_time_str_same_base; reflexivity. Defined.

Lemma digit_val_inj c c' :
  PyStr.is_digit c = true -> PyStr.is_digit c' = true ->
  PyStr.digit_val c = PyStr.digit_val c' -> c = c'.
Proof.
  destruct c as [[] [] [] [] [] [] [] []]; simpl; intros H; try discriminate H;
  destruct c' as [[] [] [] [] [] [] [] []]; simpl; intros H'; try discriminate H';
  intros E; try discriminate E; reflexivity.
Qed.

Lemma int_tail_digit acc c r :
  PyStr.is_digit c = true ->
  PyStr.int_tail acc (String c r) = PyStr.int_tail (10 * acc + PyStr.digit_val c) r.
Proof. intros H. cbn [PyStr.int_tail]. rewrite H. reflexivity. Qed.

Lemma int_first_digit c r :
  PyStr.is_digit c = true ->
  PyStr.int (String c r) =
  match PyStr.int_tail (PyStr.digit_val c) r with
  | Some n => Ok n
  | None => Raise ValueError
  end.
Proof.
  intros H. destruct c as [[] [] [] [] [] [] [] []]; try discriminate H; reflexivity.
Qed.

Lemma int_six_digits d1 d2 d3 d4 d5 d6 :
  PyStr.is_digit d1 = true -> PyStr.is_digit d2 = true -> PyStr.is_digit d3 = true ->
  PyStr.is_digit d4 = true -> PyStr.is_digit d5 = true -> PyStr.is_digit d6 = true ->
  PyStr.int (String d1 (String d2 (String d3 (String d4 (String d5 (String d6 "")))))) =
  Ok (10000 * (10 * PyStr.digit_val d1 + PyStr.digit_val d2)
      + 100 * (10 * PyStr.digit_val d3 + PyStr.digit_val d4)
      + (10 * PyStr.digit_val d5 + PyStr.digit_val d6)).
Proof.
  intros H1 H2 H3 H4 H5 H6.
  rewrite int_first_digit by assumption.
  rewrite !int_tail_digit by assumption. cbn [PyStr.int_tail]. f_equal. lia.
Qed.

(** X5. On six-digit time codes with minutes and seconds below 60,
    [hhmmss_to_seconds] keeps the order of the codes read as numbers and
    gives equal seconds only for equal codes. *)
Theorem hhmmss_to_seconds_monotone s1 s2 :
  valid_time_code s1 = true -> valid_time_code s2 = true ->
  exists t1 t2 n1 n2,
    hhmmss_to_seconds s1 = Ok t1 /\ hhmmss_to_seconds s2 = Ok t2 /\
    PyStr.int s1 = Ok n1 /\ PyStr.int s2 = Ok n2 /\
    0 <= t1 < 360000 /\
    (t1 < t2 <-> n1 < n2) /\ (t1 = t2 <-> s1 = s2).
Proof.
  unfold valid_time_code. intros V1 V2.
  apply andb_true_iff in V1 as [S1 V1]. apply andb_true_iff in V2 as [S2 V2].
  destruct (six_digits_inv _ S1) as (a1&a2&a3&a4&a5&a6&->&A1&A2&A3&A4&A5&A6).
  destruct (six_digits_inv _ S2) as (b1&b2&b3&b4&b5&b6&->&B1&B2&B3&B4&B5&B6).
  unfold PyStr.slice in V1, V2. cbn [String.substring Nat.sub] in V1, V2.
  rewrite !int_two_digits in V1, V2 by assumption.
  apply andb_true_iff in V1 as [V1m V1s]. apply andb_true_iff in V2 as [V2m V2s].
  apply Z.ltb_lt in V1m, V1s, V2m, V2s.
  unfold hhmmss_to_seconds, PyStr.slice. cbn [String.substring Nat.sub].
  rewrite !int_two_digits by assumption. cbn [bind].
  rewrite !int_six_digits by assumption.
  pose proof (digit_val_range _ A1). pose proof (digit_val_range _ A2).
  pose proof (digit_val_range _ A3). pose proof (digit_val_range _ A4).
  pose proof (digit_val_range _ A5). pose proof (digit_val_range _ A6).
  pose proof (digit_val_range _ B1). pose proof (digit_val_range _ B2).
  pose proof (digit_val_range _ B3). pose proof (digit_val_range _ B4).
  pose proof (digit_val_range _ B5). pose proof (digit_val_range _ B6).
  do 4 eexists. repeat (split; [reflexivity|]).
  split; [lia|]. split; [lia|].
  split.
  - intros E.
    assert (PyStr.digit_val a1 = PyStr.digit_val b1 /\ PyStr.digit_val a2 = PyStr.digit_val b2 /\
            PyStr.digit_val a3 = PyStr.digit_val b3 /\ PyStr.digit_val a4 = PyStr.digit_val b4 /\
            PyStr.digit_val a5 = PyStr.digit_val b5 /\ PyStr.digit_val a6 = PyStr.digit_val b6)
      as (E1&E2&E3&E4&E5&E6) by lia.
    rewrite (digit_val_inj _ _ A1 B1 E1), (digit_val_inj _ _ A2 B2 E2),
            (digit_val_inj _ _ A3 B3 E3), (digit_val_inj _ _ A4 B4 E4),
            (digit_val_inj _ _ A5 B5 E5), (digit_val_inj _ _ A6 B6 E6). reflexivity.
  - intros [= -> -> -> -> -> ->]. reflexivity.
Qed.

Lemma hhmmss_to_seconds_monotone_example :
  exists t1 t2 n1 n2,
    hhmmss_to_seconds "093000" = Ok t1 /\ hhmmss_to_seconds "100000" = Ok t2 /\
    PyStr.int "093000" = Ok n1 /\ PyStr.int "100000" = Ok n2 /\
    0 <= t1 < 360000 /\
    (t1 < t2 <-> n1 < n2) /\ (t1 = t2 <-> "093000" = "100000").
Proof. apply hhmmss_to_seconds_monotone; reflexivity. Defined.

Lemma aligned_range_near_file bl b bstart bend fstart n cursor :
  In b bl -> 0 <= n ->
  parse_burst b = Ok (bstart, bend) ->
  overlaps bstart bend fstart n ->
  range_near_file bl cursor n (aligned_range b bstart bend fstart n cursor).
Proof.
  intros Hin Hn Hp [Ho1 Ho2].
  apply (file_end_lt bstart fstart n) in Ho1.
  unfold range_near_file, aligned_range, clamp. cbn [burst start_idx end_idx].
  split; [exact Hin|].
  destruct (Z.ltb_spec ((bstart - fstart) * 4) 0),
           (Z.ltb_spec (n - 1) ((bstart - fstart) * 4)),
           (Z.ltb_spec ((bend - fstart) * 4) 0),
           (Z.ltb_spec (n - 1) ((bend - fstart) * 4));
    (split; [lia|]); (split; [lia|]);
    intros bs be Hp'; rewrite Hp in Hp'; injection Hp' as <- <-; lia.
Qed.

Lemma aligned_near_file bl fstart n cursor b entries :
  In b bl -> 0 <= n ->
  aligned fstart n cursor b entries ->
  Forall (range_near_file bl cursor n) entries /\ (List.length entries <= 1)%nat.
Proof.
  intros Hin Hn (bs & be & Hp & [[Ho ->]|[_ ->]]).
  - split; [|cbn; lia]. constructor; [|constructor].
    apply aligned_range_near_file; assumption.
  - split; [constructor|cbn; lia].
Qed.

Lemma aligned_all_near_file bl0 fstart n cursor bl added :
  0 <= n -> incl bl bl0 ->
  Forall2 (aligned fstart n cursor) bl added ->
  Forall (range_near_file bl0 cursor n) (List.concat added) /\
  (List.length (List.concat added) <= List.length bl)%nat.
Proof.
  intros Hn Hincl H. induction H as [|b e bl added Hb Hrest IH].
  - split; [constructor|cbn; lia].
  - destruct IH as [IH1 IH2]; [intros x Hx; apply Hincl; right; exact Hx|].
    destruct (aligned_near_file bl0 fstart n cursor b e) as [H1 H2];
      [apply Hincl; left; reflexivity|exact Hn|exact Hb|].
    cbn [List.concat List.length]. rewrite length_app. split; [|lia].
    apply Forall_app. split; assumption.
Qed.

Section Ranges.
Context {elt : Type}.
Implicit Types (a arr : ndarray elt) (st : loop_state elt)
         (download : string -> result (option (ndarray elt))).

Lemma find_bursts_near_file arr bl filename results cursor :
  has_pattern_A filename ->
  Forall parses bl ->
  exists added,
    find_bursts arr bl filename results cursor =
      Ok ((results ++ added)%list, cursor + nx arr) /\
    Forall (range_near_file bl cursor (nx arr)) added /\
    (List.length added <= List.length bl)%nat.
Proof.
  intros [hh Hs] Hp.
  destruct (search_seconds _ _ _ Hs) as (fs & Hfs & _).
  destruct (find_bursts_ok arr bl filename results cursor hh fs Hs Hfs Hp)
    as (added & Hfb & Hal).
  exists (List.concat added). split; [exact Hfb|].
  apply (aligned_all_near_file bl fs (nx arr) cursor bl added);
    [unfold nx; lia|apply incl_refl|exact Hal].
Qed.

(** X6. Every range [find_bursts] appends carries one of the burst strings
    unchanged, starts between [cursor - 240] and [cursor + nx - 240], ends
    between [cursor + 239] and [cursor + nx + 239], and for a burst that does
    not end before it starts in a file of at least one sample it is at least
    480 samples long; at most one range is appended per burst. *)
Theorem find_bursts_ranges_near_file arr bl filename results cursor :
  has_pattern_A filename ->
  Forall parses bl ->
  exists added,
    find_bursts arr bl filename results cursor =
      Ok ((results ++ added)%list, cursor + nx arr) /\
    Forall (range_near_file bl cursor (nx arr)) added /\
    (List.length added <= List.length bl)%nat.
Proof.
  intros Ha Hp.
  destruct (find_bursts_near_file arr bl filename results cursor Ha Hp)
    as (added & Hfb & Hnear & Hlen).
  exists added. repeat split; assumption.
Qed.

Lemma range_near_file_within_day bl cursor n total e :
  0 <= cursor -> 0 <= n -> cursor + n <= total ->
  range_near_file bl cursor n e -> range_within_day bl total e.
Proof.
  intros Hc Hn Ht (Hin & Hs & He & _). unfold range_within_day.
  split; [exact Hin|]. lia.
Qed.

Lemma range_within_day_mono bl total total' e :
  total <= total' -> range_within_day bl total e -> range_within_day bl total' e.
Proof. intros Ht (Hin & Hs & He). unfold range_within_day. split; [exact Hin|]. lia. Qed.

Lemma loop_ranges download bl urls : forall arrs st,
  decoded download urls arrs ->
  Forall has_pattern_A urls -> Forall parses bl ->
  0 <= current_idx st ->
  Forall (range_within_day bl (current_idx st)) (burst_indices st) ->
  exists st',
    foldM (one_day_body download (Some bl)) urls st = Ok st' /\
    current_idx st' = current_idx st + total_samples arrs /\
    Forall (range_within_day bl (current_idx st')) (burst_indices st') /\
    (List.length (burst_indices st') <=
     List.length (burst_indices st) + List.length urls * List.length bl)%nat.
Proof.
  induction urls as [|url urls IH]; intros arrs st Hd Ha Hp Hc Hinv.
  - inversion Hd; subst. exists st.
    split; [reflexivity|]. split; [unfold total_samples; cbn; lia|].
    split; [exact Hinv|cbn; lia].
  - inversion Hd as [|? a ? arrs' Hda Hd']; subst.
    inversion Ha as [|? ? Hau Ha']; subst.
    destruct (find_bursts_near_file a bl url (burst_indices st) (current_idx st)
                Hau Hp) as (added & Hfb & Hnear & Hlen).
    assert (Hn : 0 <= nx a) by (unfold nx; lia).
    destruct (IH arrs' (mk_loop_state (arrays st ++ [a]) (burst_indices st ++ added)
                                      (current_idx st + nx a)) Hd' Ha' Hp)
      as (st' & Hl & Hcur & Hinv' & Hlen').
    + cbn. lia.
    + cbn. apply Forall_app. split.
      * eapply Forall_impl; [|exact Hinv]. intros e He.
        eapply range_within_day_mono; [|exact He]. lia.
      * eapply Forall_impl; [|exact Hnear]. intros e He.
        eapply range_near_file_within_day; [exact Hc|exact Hn|lia|exact He].
    + exists st'. cbn [foldM]. unfold one_day_body at 1.
      rewrite Hda. cbn [bind]. rewrite Hfb. cbn [bind fst snd].
      split; [exact Hl|]. cbn in Hcur, Hlen'. rewrite length_app in Hlen'.
      rewrite total_samples_cons. split; [lia|]. split; [exact Hinv'|].
      cbn [List.length]. lia.
Qed.

Lemma loop_ranges_day download bl urls arrs :
  decoded download urls arrs ->
  Forall has_pattern_A urls ->
  Forall parses bl ->
  exists st,
    one_day_loop download (Some bl) urls = Ok st /\
    Forall (range_within_day bl (total_samples arrs)) (burst_indices st) /\
    (List.length (burst_indices st) <= List.length urls * List.length bl)%nat.
Proof.
  intros Hd Ha Hp.
  destruct (loop_ranges download bl urls arrs initial_state Hd Ha Hp)
    as (st & Hl & Hc & Hinv & Hlen); [cbn; lia|constructor|].
  exists st. split; [exact Hl|]. cbn in Hc, Hlen. rewrite Hc in Hinv.
  split; [exact Hinv|exact Hlen].
Qed.

(** X7. Over a whole day every stored range carries one of the burst strings
    unchanged, starts between -240 and [total - 240] and ends between 239
    and [total + 239], where [total] is the number of samples assembled;
    there are at most files times bursts ranges. *)
Theorem one_day_ranges_within_day download bl urls arrs :
  decoded download urls arrs ->
  Forall has_pattern_A urls ->
  Forall parses bl ->
  exists st,
    one_day_loop download (Some bl) urls = Ok st /\
    Forall (range_within_day bl (total_samples arrs)) (burst_indices st) /\
    (List.length (burst_indices st) <= List.length urls * List.length bl)%nat.
Proof.
  intros Hd Ha Hp.
  destruct (loop_ranges_day download bl urls arrs Hd Ha Hp) as (st & Hl & Hr & Hlen).
  exists st. repeat split; assumption.
Qed.

Lemma loop_length download bl urls : forall st0 st,
  (forall url, download url <> Ok None) ->
  foldM (one_day_body download bl) urls st0 = Ok st ->
  List.length (arrays st) = (List.length (arrays st0) + List.length urls)%nat.
Proof.
  induction urls as [|url urls IH]; intros st0 st Hnn Hl.
  - cbn in Hl. injection Hl as <-. cbn. lia.
  - cbn [foldM] in Hl. unfold one_day_body in Hl at 1.
    destruct (download url) as [[a|]|e] eqn:Hd; cbn [bind] in Hl;
      [|exfalso; apply (Hnn url Hd)|discriminate Hl].
    destruct (match bl with Some bl0 => _ | None => _ end) as [bc|];
      [|discriminate Hl].
    cbn [bind] in Hl. rewrite (IH _ st Hnn Hl). cbn. rewrite length_app. cbn. lia.
Qed.

End Ranges.

Lemma circular_sort_nonempty files offset url sorted :
  circular_sort files offset url = Ok sorted -> sorted <> [].
Proof.
  intros Hs. destruct files as [|f0 rest]; [discriminate Hs|].
  destruct (choose_pattern (f0 :: rest) url) as [c|e] eqn:Hc;
    [|rewrite (circular_sort_raise_choose _ _ _ _ Hc) in Hs; discriminate Hs].
  pose proof (circular_sort_members _ _ _ _ _ Hc Hs) as Hp.
  assert (Hm : matches c f0 = true).
  { rewrite choose_pattern_cases in Hc.
    destruct (matches Re.pattern_A f0) eqn:EA; [injection Hc as <-; exact EA|].
    destruct (matches Re.pattern_B f0) eqn:EB; [injection Hc as <-; exact EB|].
    discriminate Hc. }
  intros ->. apply Permutation_nil in Hp.
  cbn [filter] in Hp. rewrite Hm in Hp. discriminate Hp.
Qed.

(** X8. When the loop of [one_day] finishes it holds exactly one array per
    sequenced file, and there is at least one: the empty case of line 202 is
    never taken, and the result is the concatenation and flip of those
    arrays. *)
Theorem one_day_one_array_per_file {elt : Type} (w : world elt)
        files url station time bl sorted st :
  circular_sort (filter (PyStr.contains station) files) time url = Ok sorted ->
  one_day_loop (download_fits_from_gz w) bl sorted = Ok st ->
  List.length (arrays st) = List.length sorted /\
  arrays st <> [] /\
  one_day w files url station time bl =
    bind (np_concatenate_axis1 (arrays st))
         (fun big_array => Ok (np_flipud big_array, burst_indices st)).
Proof.
  intros Hs Hl.
  pose proof (loop_length (download_fits_from_gz w) bl sorted initial_state st
                (download_never_none w) Hl) as Hlen.
  cbn in Hlen. pose proof (circular_sort_nonempty _ _ _ _ Hs) as Hne.
  split; [exact Hlen|].
  assert (Hne' : arrays st <> []).
  { intros E. rewrite E in Hlen. destruct sorted; [contradiction|discriminate]. }
  split; [exact Hne'|].
  rewrite (one_day_unfold _ _ _ _ _ _ _ Hs), Hl. cbn [bind].
  unfold one_day_finish. destruct (arrays st); [contradiction|reflexivity].
Qed.


Section Rotation.
Context {A : Type} (key : A -> Z).




End Rotation.




Lemma set_true_from_length p lo hi mask :
  List.length (Snr.set_true_from p lo hi mask) = List.length mask.
Proof.
  revert p. induction mask as [|b mask IH]; intros p; cbn; [reflexivity|].
  rewrite IH. reflexivity.
Qed.

Lemma set_true_from_nth lo hi mask : forall p i,
  (i < List.length mask)%nat ->
  nth i (Snr.set_true_from p lo hi mask) false =
  ((lo <=? p + Z.of_nat i) && (p + Z.of_nat i <? hi)) || nth i mask false.
Proof.
  induction mask as [|b mask IH]; intros p i Hi; [cbn in Hi; lia|].
  destruct i as [|i]; cbn [Snr.set_true_from nth].
  - rewrite Z.add_0_r. destruct ((lo <=? p) && (p <? hi)); reflexivity.
  - rewrite IH by (cbn in Hi; lia).
    replace (p + 1 + Z.of_nat i) with (p + Z.of_nat (S i)) by lia. reflexivity.
Qed.

Lemma assign_true_length start stop mask :
  List.length (Snr.assign_true start stop mask) = List.length mask.
Proof. apply set_true_from_length. Qed.

Lemma assign_entry_nth n e mask i :
  List.length mask = n -> (i < n)%nat ->
  nth i (Snr.assign_true (Z.max 0 (start_idx e))
                         (Z.min (Z.of_nat n - 1) (end_idx e) + 1) mask) false = true <->
  covers (Z.of_nat n) e (Z.of_nat i) \/ nth i mask false = true.
Proof.
  intros Hn Hi. unfold Snr.assign_true. rewrite set_true_from_nth by lia.
  rewrite Hn. unfold Snr.slice_bound, covers.
  rewrite orb_true_iff, andb_true_iff, Z.leb_le, Z.ltb_lt.
  destruct (Z.ltb_spec (Z.max 0 (start_idx e)) 0),
           (Z.ltb_spec (Z.min (Z.of_nat n - 1) (end_idx e) + 1) 0),
           (Z.leb_spec (-1) (end_idx e)); intuition lia.
Qed.

Lemma burst_mask_fold n labels : forall mask,
  List.length mask = n ->
  List.length
    (fold_left (fun mask entry =>
        Snr.assign_true (Z.max 0 (start_idx entry))
                        (Z.min (Z.of_nat n - 1) (end_idx entry) + 1) mask)
      labels mask) = n /\
  forall i, (i < n)%nat ->
    (nth i (fold_left (fun mask entry =>
        Snr.assign_true (Z.max 0 (start_idx entry))
                        (Z.min (Z.of_nat n - 1) (end_idx entry) + 1) mask)
      labels mask) false = true <->
     nth i mask false = true \/
     exists e, In e labels /\ covers (Z.of_nat n) e (Z.of_nat i)).
Proof.
  induction labels as [|e labels IH]; intros mask Hn.
  - split; [exact Hn|]. intros i Hi. cbn. split; [auto|].
    intros [H|(e & [] & _)]. exact H.
  - cbn [fold_left].
    destruct (IH (Snr.assign_true (Z.max 0 (start_idx e))
                    (Z.min (Z.of_nat n - 1) (end_idx e) + 1) mask)) as [IHl IHn].
    { rewrite assign_true_length. exact Hn. }
    split; [exact IHl|]. intros i Hi. rewrite (IHn i Hi).
    rewrite (assign_entry_nth n e mask i Hn Hi). split.
    + intros [[H|H]|(e' & Hin & Hc)]; [right; exists e|left|right; exists e'];
        cbn; auto.
    + intros [H|(e' & [<-|Hin] & Hc)]; [left; right|left; left|right; exists e'];
        auto.
Qed.

Lemma burst_mask_nth n_times burst_labels :
  List.length (Snr.burst_mask n_times burst_labels) = n_times /\
  forall i, (i < n_times)%nat ->
    (nth i (Snr.burst_mask n_times burst_labels) false = true <->
     exists e, In e burst_labels /\ covers (Z.of_nat n_times) e (Z.of_nat i)).
Proof.
  destruct (burst_mask_fold n_times burst_labels (repeat false n_times)
              (repeat_length false n_times)) as [Hl Hn].
  split; [exact Hl|]. intros i Hi. unfold Snr.burst_mask. rewrite (Hn i Hi).
  rewrite nth_repeat. split; [intros [H|H]; [discriminate|exact H]|auto].
Qed.

(** X11. The burst mask of [compute_snr] has one entry per time sample, and
    sample [i] is marked exactly when some label has [start_idx <= i] and
    either [i <= end_idx], or an [end_idx] below -1 with
    [i <= n_times + end_idx]: such an end counts from the end of the series. *)
Theorem burst_mask_covers n_times burst_labels :
  List.length (Snr.burst_mask n_times burst_labels) = n_times /\
  forall i, (i < n_times)%nat ->
    (nth i (Snr.burst_mask n_times burst_labels) false = true <->
     exists e, In e burst_labels /\ covers (Z.of_nat n_times) e (Z.of_nat i)).
Proof.
  destruct (burst_mask_nth n_times burst_labels) as [Hl Hn].
  split; [exact Hl|]. intros i Hi. apply Hn, Hi.
Qed.

Lemma select_partition {A : Type} (mask : list bool) : forall (xs : list A),
  List.length mask = List.length xs ->
  Permutation (Snr.select mask xs ++ Snr.select (map negb mask) xs) xs /\
  (Snr.select mask xs = [] <-> forall i, (i < List.length xs)%nat -> nth i mask false = false).
Proof.
  induction mask as [|b mask IH]; intros [|x xs] Hl; try discriminate Hl.
  - split; [constructor|]. split; [intros _ i Hi; cbn in Hi; lia|reflexivity].
  - injection Hl as Hl. destruct (IH xs Hl) as [IHp IHe].
    cbn [Snr.select map]. destruct b; cbn [negb].
    + split; [cbn; constructor; exact IHp|]. split; [discriminate|].
      intros H. specialize (H 0%nat). cbn in H. discriminate H. lia.
    + split.
      * apply Permutation_sym, Permutation_cons_app, Permutation_sym, IHp.
      * rewrite IHe. split.
        -- intros H [|i] Hi; [reflexivity|]. cbn. apply H. cbn in Hi. lia.
        -- intros H i Hi. apply (H (S i)). cbn. lia.
Qed.

(** X12. The flux inside the bursts and the flux outside them together are
    the whole flux series, each sample in exactly one of the two, and the
    inside is empty exactly when no label covers a sample. *)
Theorem flux_is_partitioned {A : Type} (flux_time : list A) burst_labels :
  Permutation (Snr.inside_flux flux_time burst_labels
               ++ Snr.outside_flux flux_time burst_labels) flux_time /\
  (List.length (Snr.inside_flux flux_time burst_labels)
   + List.length (Snr.outside_flux flux_time burst_labels)
   = List.length flux_time)%nat /\
  (Snr.inside_flux flux_time burst_labels = [] <->
   forall i e, (i < List.length flux_time)%nat -> In e burst_labels ->
               ~ covers (Z.of_nat (List.length flux_time)) e (Z.of_nat i)).
Proof.
  destruct (burst_mask_nth (List.length flux_time) burst_labels) as [Hl Hc].
  destruct (select_partition (Snr.burst_mask (List.length flux_time) burst_labels)
              flux_time Hl) as [Hp He].
  unfold Snr.inside_flux, Snr.outside_flux.
  split; [exact Hp|]. split.
  - rewrite <- length_app. apply Permutation_length, Hp.
  - rewrite He. split.
    + intros H i e Hi Hin Hcov. specialize (H i Hi).
      assert (nth i (Snr.burst_mask (List.length flux_time) burst_labels) false = true)
        by (apply (Hc i Hi); eauto).
      congruence.
    + intros H i Hi.
      destruct (nth i (Snr.burst_mask (List.length flux_time) burst_labels) false) eqn:E;
        [|reflexivity].
      apply (Hc i Hi) in E as (e & Hin & Hcov). exfalso. exact (H i e Hi Hin Hcov).
Qed.

(** X13. For the labels [one_day] produces and the series it assembles,
    [compute_snr] marks sample [i] exactly when some label has
    [start_idx <= i <= end_idx]: the margins outside the series are cut off
    and no label wraps around. *)
Theorem burst_mask_of_one_day {elt : Type}
        (download : string -> result (option (ndarray elt))) bl urls arrs :
  decoded download urls arrs ->
  Forall has_pattern_A urls ->
  Forall parses bl ->
  exists st,
    one_day_loop download (Some bl) urls = Ok st /\
    let n_times := list_sum (map shape1 arrs) in
    forall i, (i < n_times)%nat ->
      (nth i (Snr.burst_mask n_times (burst_indices st)) false = true <->
       exists e, In e (burst_indices st) /\
                 start_idx e <= Z.of_nat i <= end_idx e).
Proof.
  intros Hd Ha Hp.
  destruct (loop_ranges_day download bl urls arrs Hd Ha Hp)
    as (st & Hl & Hr & _).
  exists st. split; [exact Hl|]. cbv zeta. intros i Hi.
  destruct (burst_mask_nth (list_sum (map shape1 arrs)) (burst_indices st)) as [_ Hc].
  rewrite (Hc i Hi). rewrite Forall_forall in Hr.
  split; intros (e & Hin & Hcov); exists e; (split; [exact Hin|]);
    destruct (Hr e Hin) as (_ & _ & He); unfold covers in *;
    destruct (Z.leb_spec (-1) (end_idx e)); lia.
Qed.

Lemma format_reads_back_4 : forallb (format_reads_back 4) (seq 0 (100 * 100)) = true.
Proof. vm_compute. reflexivity. Qed.

Lemma format_reads_back_2 : forallb (format_reads_back 2) (seq 0 100) = true.
Proof. vm_compute. reflexivity. Qed.

Lemma format_0d_reads_back width bound n :
  forallb (format_reads_back width) (seq 0 bound) = true ->
  0 <= n < Z.of_nat bound ->
  String.length (format_0d width n) = width /\
  PyStr.all_chars PyStr.is_digit (format_0d width n) = true /\
  PyStr.int (format_0d width n) = Ok n.
Proof.
  intros Hall Hn. rewrite forallb_forall in Hall.
  specialize (Hall (Z.to_nat n)). unfold format_reads_back in Hall.
  rewrite Z2Nat.id in Hall by lia.
  assert (Hin : In (Z.to_nat n) (seq 0 bound)) by (apply in_seq; lia).
  apply Hall in Hin. apply andb_true_iff in Hin as [Hin H3].
  apply andb_true_iff in Hin as [H1 H2].
  apply Nat.eqb_eq in H1. split; [exact H1|]. split; [exact H2|].
  destruct (PyStr.int (format_0d width n)) as [k|]; [|discriminate].
  apply Z.eqb_eq in H3. subst k. reflexivity.
Qed.

Lemma substring_app_left a b :
  String.substring 0 (String.length a) (a ++ b) = a.
Proof.
  induction a as [|c a IH]; cbn.
  - destruct b; reflexivity.
  - rewrite IH. reflexivity.
Qed.

Lemma substring_app_right a b m :
  String.substring (String.length a) m (a ++ b) = String.substring 0 m b.
Proof. induction a as [|c a IH]; cbn; [reflexivity|exact IH]. Qed.

Lemma substring_all a : String.substring 0 (String.length a) a = a.
Proof. induction a as [|c a IH]; cbn; [reflexivity|rewrite IH; reflexivity]. Qed.

Lemma all_chars_app p a b :
  PyStr.all_chars p (a ++ b) = PyStr.all_chars p a && PyStr.all_chars p b.
Proof.
  induction a as [|c a IH]; cbn; [reflexivity|]. rewrite IH, andb_assoc. reflexivity.
Qed.

Lemma length_append a b :
  String.length (a ++ b) = (String.length a + String.length b)%nat.
Proof. induction a as [|c a IH]; cbn; [reflexivity|rewrite IH; reflexivity]. Qed.

Lemma append_assoc' a b c : (a ++ (b ++ c))%string = ((a ++ b) ++ c)%string.
Proof. induction a as [|x a IH]; cbn; [reflexivity|rewrite IH; reflexivity]. Qed.

(** X14. For a year up to 9999 and a month and a day up to 99 the date key of
    [extract_bursts] is eight digits, and its three fields read back as the
    year, the month and the day, so different dates have different keys. *)
Theorem date_key_reads_back year month day :
  0 <= year <= 9999 -> 0 <= month <= 99 -> 0 <= day <= 99 ->
  String.length (date_of year month day) = 8%nat /\
  PyStr.all_chars PyStr.is_digit (date_of year month day) = true /\
  PyStr.int (PyStr.slice 0 4 (date_of year month day)) = Ok year /\
  PyStr.int (PyStr.slice 4 6 (date_of year month day)) = Ok month /\
  PyStr.int (PyStr.slice 6 8 (date_of year month day)) = Ok day.
Proof.
  intros Hy Hm Hd.
  assert (Hb : Z.of_nat (100 * 100) = 10000) by (vm_compute; reflexivity).
  destruct (format_0d_reads_back 4 (100 * 100) year format_reads_back_4) as (Ly & Dy & Iy);
    [rewrite Hb; lia|].
  destruct (format_0d_reads_back 2 100 month format_reads_back_2) as (Lm & Dm & Im);
    [lia|].
  destruct (format_0d_reads_back 2 100 day format_reads_back_2) as (Ld & Dd & Id);
    [lia|].
  unfold date_of, PyStr.slice.
  split; [rewrite !length_append, Ly, Lm, Ld; reflexivity|].
  split; [rewrite !all_chars_app, Dy, Dm, Dd; reflexivity|].
  change (4 - 0)%nat with 4%nat. change (6 - 4)%nat with 2%nat.
  change (8 - 6)%nat with 2%nat.
  split; [rewrite <- Ly at 1; rewrite substring_app_left; exact Iy|].
  split.
  - rewrite <- Ly at 1. rewrite substring_app_right.
    rewrite <- Lm at 1. rewrite substring_app_left. exact Im.
  - replace 6%nat with (String.length (format_0d 4 year ++ format_0d 2 month))
      by (rewrite length_append, Ly, Lm; reflexivity).
    rewrite append_assoc'. rewrite substring_app_right.
    rewrite <- Ld at 1. rewrite substring_all. exact Id.
Qed.

Example parse_args_exits_on_missing_year :
  exists printed,
    Cli.parse_args ["one_day.py"; "ALASKA-COHOE"; "05"; "13"] = Raise (SystemExit printed 1).
Proof. eexists. reflexivity. Qed.

Example parse_args_month_first :
  Cli.parse_args ["one_day.py"; "ALASKA-COHOE"; "05"; "13"; "2025"] =
  Ok ("ALASKA-COHOE", "2025", "05", "13", "000000", false).
Proof. reflexivity. Qed.

Lemma find_bursts_ranges_near_file_example :
  let bl := ["09:00:30-09:01:00"; "08:00-08:30"; "08:59-09:00"] in
  exists added,
    find_bursts (samples 900) bl url_0900 [] 0 =
      Ok (([] ++ added)%list, 0 + nx (samples 900)) /\
    Forall (range_near_file bl 0 (nx (samples 900))) added /\
    (List.length added <= List.length bl)%nat.
Proof.
  apply find_bursts_ranges_near_file.
  - eexists; vm_compute; reflexivity.
  - repeat constructor; eexists; vm_compute; reflexivity.
Defined.

Lemma one_day_ranges_within_day_example :
  let urls := [url_0900; url_0915; url_0930] in
  let arrs := [samples 900; samples 850; samples 900] in
  let bl := ["09:00:30-09:01:00"; "09:14-09:16"] in
  exists st,
    one_day_loop download_3 (Some bl) urls = Ok st /\
    Forall (range_within_day bl (total_samples arrs)) (burst_indices st) /\
    (List.length (burst_indices st) <= List.length urls * List.length bl)%nat.
Proof.
  apply one_day_ranges_within_day.
  - repeat constructor.
  - repeat constructor; eexists; vm_compute; reflexivity.
  - repeat constructor; eexists; vm_compute; reflexivity.
Defined.

Example one_day_burst_in_second_file :
  exists st,
    one_day_loop download_3 (Some ["09:14-09:16"]) [url_0900; url_0915; url_0930] = Ok st /\
    burst_indices st =
      [mk_burst_index "09:14-09:16" 660 1380].
Proof. eexists. split; vm_compute; reflexivity. Qed.

Lemma one_day_one_array_per_file_example :
  let st := mk_loop_state [small_1; small_1] [] 0 in
  List.length (arrays st) = List.length [url_0900; url_0915] /\
  arrays st <> [] /\
  one_day (world_404 "") [url_0900; url_0915] day_url "S_" "000000" None =
    bind (np_concatenate_axis1 (arrays st))
         (fun big_array => Ok (np_flipud big_array, burst_indices st)).
Proof.
  apply (one_day_one_array_per_file (world_404 "") [url_0900; url_0915] day_url
           "S_" "000000" None [url_0900; url_0915]); reflexivity.
Defined.


Example circular_sort_wraps_order :
  circular_sort [url_0930; url_0900; url_0915] "091000" day_url =
  Ok [url_0915; url_0930; url_0900].
Proof. vm_compute. reflexivity. Qed.


Lemma burst_mask_of_one_day_example :
  let urls := [url_0900; url_0915] in
  let arrs := [small_1; small_2] in
  let bl := ["09:00-09:01"] in
  exists st,
    one_day_loop download_small (Some bl) urls = Ok st /\
    let n_times := list_sum (map shape1 arrs) in
    forall i, (i < n_times)%nat ->
      (nth i (Snr.burst_mask n_times (burst_indices st)) false = true <->
       exists e, In e (burst_indices st) /\
                 start_idx e <= Z.of_nat i <= end_idx e).
Proof.
  apply burst_mask_of_one_day.
  - repeat constructor.
  - repeat constructor; eexists; vm_compute; reflexivity.
  - repeat constructor; eexists; vm_compute; reflexivity.
Defined.

Example burst_mask_clips_and_wraps :
  Snr.burst_mask 6 [mk_burst_index "a" (-240) 1] = [true; true; false; false; false; false] /\
  Snr.burst_mask 6 [mk_burst_index "b" 4 700] = [false; false; false; false; true; true] /\
  Snr.burst_mask 6 [mk_burst_index "c" (-9) (-3)] = [true; true; true; true; false; false].
Proof. vm_compute. repeat split. Qed.

Lemma date_key_reads_back_example :
  String.length (date_of 2025 5 13) = 8%nat /\
  PyStr.all_chars PyStr.is_digit (date_of 2025 5 13) = true /\
  PyStr.int (PyStr.slice 0 4 (date_of 2025 5 13)) = Ok 2025 /\
  PyStr.int (PyStr.slice 4 6 (date_of 2025 5 13)) = Ok 5 /\
  PyStr.int (PyStr.slice 6 8 (date_of 2025 5 13)) = Ok 13.
Proof. apply date_key_reads_back; lia. Defined.
